(** * SmileFetcher: a shallow embedding of [SmileFetcher.py]

    The script reads compound names from the first column of a spreadsheet,
    asks PubChem for an identifier and a SMILES string for each of them,
    writes the answers to a new workbook, colours the status column and
    appends four summary counts.

    Python strings are modelled as lists of Unicode code points, the
    workbook as a finite map from (row, column) to cells, and the effects of
    the script (HTTP requests, console output, file system) as explicit
    state passing over a [world] record. *)

From Stdlib Require Import ZArith NArith String Ascii DecimalString.
From stdpp Require Import base option list gmap fin_maps.
From Equations Require Import Equations.

(** ** Python strings *)

Module PyStr.

#[local] Open Scope N_scope.

(** A [str] is a sequence of code points. *)
Definition codepoint := N.
Abbreviation pystr := (list N).

(** An ASCII literal of the source. *)
Definition lit (s : string) : pystr :=
  map N_of_ascii (list_ascii_of_string s).
Arguments lit : simpl never.

(** The four Greek letters of the replacement tables. *)
Definition alpha_chr : codepoint := 0x3b1.
Definition beta_chr : codepoint := 0x3b2.
Definition gamma_chr : codepoint := 0x3b3.
Definition delta_chr : codepoint := 0x3b4.
Definition comma_chr : codepoint := 44.
Definition space_chr : codepoint := 32.

Fixpoint starts_with (p s : pystr) : bool :=
  match p, s with
  | [], _ => true
  | _ :: _, [] => false
  | a :: p', b :: s' => (a =? b) && starts_with p' s'
  end.

(** [s.replace(old, new)] for a non-empty [old]: the occurrences are taken
    from the left and do not overlap; [skip] counts the characters of a
    match that are still to be dropped. *)
Fixpoint replace_from (old new : pystr) (skip : nat) (s : pystr) : pystr :=
  match s with
  | [] => []
  | c :: t =>
      match skip with
      | S k => replace_from old new k t
      | O =>
          if starts_with old s
          then new ++ replace_from old new (length old - 1) t
          else c :: replace_from old new 0 t
      end
  end.

(** [str.replace]; an empty [old] matches before every character and at
    the end. *)
Definition str_replace (old new s : pystr) : pystr :=
  match old with
  | [] => new ++ flat_map (λ c, c :: new) s
  | _ :: _ => replace_from old new 0 s
  end.

(** What [replace] does with a one-character pattern. *)
Definition subst_chr (k : codepoint) (new : pystr) (c : codepoint) : pystr :=
  if c =? k then new else [c].

End PyStr.
Import PyStr.

(** ** Cell values *)

#[local] Set Warnings "-register-all".

(** A float that is not NaN, known by its [str()], by whether it is zero,
    and by what comes back once it has been written to a workbook and the
    workbook loaded again. The file keeps the digits openpyxl prints, and
    the loader reads digits without a point or an exponent as an int: 7.0
    is stored as 7 and comes back as the int 7, while a float of which the
    file does not keep every digit comes back as another float.
    [f_reloaded] is [None] for a float that comes back as itself. *)
Inductive pyfloat :=
| Float (repr : pystr) (zero : bool) (reloaded : option (Z + pyfloat)).

Definition f_repr (f : pyfloat) : pystr :=
  match f with Float repr _ _ => repr end.

Definition f_zero (f : pyfloat) : bool :=
  match f with Float _ zero _ => zero end.

Definition f_reloaded (f : pyfloat) : option (Z + pyfloat) :=
  match f with Float _ _ reloaded => reloaded end.

(** The scalar values a spreadsheet cell holds once pandas or openpyxl has
    read it. [CNone] is [None] (a blank cell), [CNaN] is pandas' missing
    value. *)
Inductive cell :=
| CNone
| CNaN
| CBool (b : bool)
| CInt (z : Z)
| CFloat (f : pyfloat)
| CStr (s : pystr).

(** [pd.isna] on a scalar. *)
Definition isna (v : cell) : bool :=
  match v with
  | CNone | CNaN => true
  | _ => false
  end.

(** [str(v)]. The ints that reach the script come from a workbook or from
    a JSON document and are far shorter than the 4300 digits beyond which
    [str] refuses an int. *)
Definition py_str (v : cell) : pystr :=
  match v with
  | CNone => lit "None"
  | CNaN => lit "nan"
  | CBool true => lit "True"
  | CBool false => lit "False"
  | CInt z => lit (NilZero.string_of_int (Z.to_int z))
  | CFloat f => f_repr f
  | CStr s => s
  end.

(** The truth value of [v] in an [if]. *)
Definition truthy (v : cell) : bool :=
  match v with
  | CNone => false
  | CNaN => true
  | CBool b => b
  | CInt z => negb (z =? 0)%Z
  | CFloat f => negb (f_zero f)
  | CStr s => negb (bool_decide (s = []))
  end.

(** [v == s] for a string literal [s]. *)
Definition eq_str (v : cell) (s : pystr) : bool :=
  match v with
  | CStr t => bool_decide (t = s)
  | _ => false
  end.

(** ** Name normalizer *)

(** A replacement table is a dict literal: its items are visited in the
    order they are written. *)
Definition apply_replacements (replacements : list (pystr * pystr))
    (name : pystr) : pystr :=
  fold_left (λ name kv, str_replace kv.1 kv.2 name) replacements name.

Definition greek_replacements : list (pystr * pystr) :=
  [ ([alpha_chr], lit "alpha");
    ([beta_chr], lit "beta");
    ([gamma_chr], lit "gamma");
    ([delta_chr], lit "delta") ].

Definition hyperlink_replacements : list (pystr * pystr) :=
  [ ([comma_chr], lit "%2c");
    ([space_chr], lit "%20");
    ([alpha_chr], lit "alpha");
    ([beta_chr], lit "beta");
    ([gamma_chr], lit "gamma");
    ([delta_chr], lit "delta") ].

Definition replace_special_characters (name : cell) : pystr :=
  if isna name then []
  else apply_replacements greek_replacements (py_str name).

Definition replace_special_characters_for_hyperlink (name : cell) : pystr :=
  if isna name then []
  else apply_replacements hyperlink_replacements (py_str name).

(** The encoding as the specification words it: the Greek letters are
    spelled out first, then commas and spaces are percent-encoded. *)
Definition percent_encode (s : pystr) : pystr :=
  str_replace [space_chr] (lit "%20") (str_replace [comma_chr] (lit "%2c") s).

Definition urlEncode_spec (name : cell) : pystr :=
  percent_encode (replace_special_characters name).

Definition greek : list codepoint :=
  [alpha_chr; beta_chr; gamma_chr; delta_chr].

(** The characters the table of the hyperlink encoder replaces. *)
Definition keys : list codepoint :=
  [comma_chr; space_chr; alpha_chr; beta_chr; gamma_chr; delta_chr].

(** The two tables, each as one substitution per character. *)
Definition greek_subst (c : codepoint) : pystr :=
  flat_map (subst_chr delta_chr (lit "delta"))
    (flat_map (subst_chr gamma_chr (lit "gamma"))
       (flat_map (subst_chr beta_chr (lit "beta"))
          (subst_chr alpha_chr (lit "alpha") c))).

Definition hyperlink_subst (c : codepoint) : pystr :=
  flat_map greek_subst
    (flat_map (subst_chr space_chr (lit "%20"))
       (subst_chr comma_chr (lit "%2c") c)).

Definition percent_subst (c : codepoint) : pystr :=
  flat_map (subst_chr space_chr (lit "%20"))
    (subst_chr comma_chr (lit "%2c") c).

(** The substitution table as the specification gives it, one character
    at a time: the spelling of a Greek letter, the percent-encoding of a
    comma or a space, and the two together. *)
Definition spelled (c : codepoint) : pystr :=
  if (c =? 0x3b1)%N then lit "alpha"
  else if (c =? 0x3b2)%N then lit "beta"
  else if (c =? 0x3b3)%N then lit "gamma"
  else if (c =? 0x3b4)%N then lit "delta"
  else [c].

Definition percent (c : codepoint) : pystr :=
  if (c =? 44)%N then lit "%2c"
  else if (c =? 32)%N then lit "%20"
  else [c].

Definition encoded_char (c : codepoint) : pystr :=
  if (c =? 44)%N then lit "%2c"
  else if (c =? 32)%N then lit "%20"
  else spelled c.

(** The name segment of a URL for the name in a cell. *)
Definition encoded_name (name : cell) : pystr :=
  if isna name then [] else flat_map encoded_char (py_str name).

(** ** Exceptions *)

(** The exception classes the script can meet. All of them derive from
    [Exception]; [HTTPError] is the one [raise_for_status] raises and it
    carries the status code of the response it was raised for. *)
Inductive exn :=
| HTTPError (status : Z)
| RequestException
| JSONDecodeError
| KeyError
| IndexError
| TypeError
| ValueError
| AttributeError
| OSError.

Inductive py (A : Type) :=
| Ret (a : A)
| Raise (e : exn).
Arguments Ret {A} a.
Arguments Raise {A} e.

#[export] Instance py_ret : MRet py := λ A a, Ret a.

#[export] Instance py_bind : MBind py := λ A B k m,
  match m with
  | Ret a => k a
  | Raise e => Raise e
  end.

(** ** The normalizer, value by value *)

(** [replace_special_characters] once more, with the type of every
    intermediate value kept: [replace] is a method of [str], and calling it
    on anything else raises [AttributeError]. *)
Definition method_replace (name : cell) (key value : pystr) : py cell :=
  match name with
  | CStr s => Ret (CStr (str_replace key value s))
  | _ => Raise AttributeError
  end.

(** [for key, value in replacements.items(): name = name.replace(key, value)]. *)
Fixpoint replace_loop (replacements : list (pystr * pystr)) (name : cell)
    : py cell :=
  match replacements with
  | [] => Ret name
  | (key, value) :: rest =>
      name ← method_replace name key value;
      replace_loop rest name
  end.

Definition replace_special_characters_py (name : cell) : py cell :=
  if isna name then Ret (CStr [])
  else replace_loop greek_replacements (CStr (py_str name)).

(** ** JSON documents *)

(** What [response.json()] returns. [JNull] is Python's [None]; an object
    is kept as the list of its items. *)
Inductive json :=
| JNull
| JBool (b : bool)
| JInt (z : Z)
| JFloat (f : pyfloat)
| JStr (s : pystr)
| JList (items : list json)
| JDict (items : list (pystr * json)).

Fixpoint dict_get {V} (items : list (pystr * V)) (key : pystr) : option V :=
  match items with
  | [] => None
  | (k, v) :: rest => if bool_decide (k = key) then Some v else dict_get rest key
  end.

(** [v[key]] for a string [key]. *)
Definition getitem_str (v : json) (key : pystr) : py json :=
  match v with
  | JDict items =>
      match dict_get items key with
      | Some x => Ret x
      | None => Raise KeyError
      end
  | _ => Raise TypeError
  end.

(** [v[0]]. The keys of a JSON object are strings, so [0] is never one. *)
Definition getitem_0 (v : json) : py json :=
  match v with
  | JList (x :: _) => Ret x
  | JList [] => Raise IndexError
  | JStr (c :: _) => Ret (JStr [c])
  | JStr [] => Raise IndexError
  | JDict _ => Raise KeyError
  | _ => Raise TypeError
  end.

(** [v] is what the object with the items [items] holds under [key]. *)
Inductive binding {V} : list (pystr * V) → pystr → V → Prop :=
| binding_here key v rest : binding ((key, v) :: rest) key v
| binding_later k x rest key v :
    k ≠ key → binding rest key v → binding ((k, x) :: rest) key v.

(** ** The workbook *)

Record pattern_fill := PatternFill {
  start_color : pystr;
  end_color : pystr;
  fill_type : pystr }.

Record hyperlink_t := Hyperlink {
  ref : nat * nat;
  target : pystr }.

(** A cell of the sheet: its value and the two style attributes the script
    sets. *)
Record xcell := XCell {
  value : cell;
  fill : option pattern_fill;
  hyperlink : option hyperlink_t }.

Definition blank : xcell := XCell CNone None None.

(** The sheet keeps the cells that exist, keyed by (row, column), both
    counted from 1. *)
Abbreviation worksheet := (gmap (nat * nat) xcell).

Definition col_A : nat := 1.
Definition col_B : nat := 2.
Definition col_C : nat := 3.
Definition col_D : nat := 4.
Definition col_E : nat := 5.

(** [worksheet.max_row]: 1 for a sheet without cells, else the largest row
    of a cell. *)
Definition max_row (ws : worksheet) : nat :=
  if decide (ws = ∅) then 1 else max_list ((map_to_list ws).*1.*1).

(** Reading [worksheet[k]] gives the cell at [k], a blank one when there
    was none ... *)
Definition ws_get (ws : worksheet) (k : nat * nat) : xcell :=
  default blank (ws !! k).

(** ... and leaves that cell in the sheet. *)
Definition touch (k : nat * nat) (ws : worksheet) : worksheet :=
  match ws !! k with
  | Some _ => ws
  | None => <[k := blank]> ws
  end.

Definition set_fill (k : nat * nat) (f : pattern_fill) (ws : worksheet)
    : worksheet :=
  let c := ws_get ws k in
  <[k := XCell (value c) (Some f) (hyperlink c)]> ws.

(** Assigning a hyperlink to a cell without a value also sets the value to
    the target. *)
Definition set_hyperlink (k : nat * nat) (h : hyperlink_t) (ws : worksheet)
    : worksheet :=
  let c := ws_get ws k in
  let v := match value c with CNone => CStr (target h) | v => v end in
  <[k := XCell v (fill c) (Some h)]> ws.

Definition set_value (k : nat * nat) (v : cell) (ws : worksheet)
    : worksheet :=
  let c := ws_get ws k in
  <[k := XCell v (fill c) (hyperlink c)]> ws.

(** In a sheet openpyxl built, rows are counted from 1. *)
Definition well_formed (ws : worksheet) : Prop :=
  ∀ k : nat * nat, is_Some (ws !! k) → 1 ≤ k.1.

(** ** The world outside the script *)

Record response := Response {
  status_code : Z;
  body : option json }.

(** What a GET comes back with: no response at all (connection refused,
    timeout, ...: [requests.get] raises), or a response whose body is a
    JSON document or not. *)
Inductive http_reply :=
| NoReply
| Reply (r : response).

(** The lines the script prints. *)
Inductive message :=
| SubstanceNotFound (compound_name : pystr)
| HttpErrorOccurred (err : exn)
| ErrorOccurred (err : exn)
| ErrorReading (e : exn)
| ProcessedFileSaved
| ErrorSaving (e : exn).

(** The state the script acts on: the URLs requested so far, the console,
    and the output workbook on disk. *)
Record world := World {
  requests : list pystr;
  console : list message;
  output_file : option worksheet }.

(** What the script cannot decide: the reply to the n-th request of the
    run, the first column of the input workbook (or the exception
    [read_excel] raises), and whether each file-system operation goes
    through. [container_str v] is [str(v)] for a JSON list or object [v],
    which is left open here. *)
Record environment := Environment {
  remote : nat → pystr → http_reply;
  read_excel : py (list cell);
  makedirs : py ();
  to_excel_io : py ();
  load_workbook_io : py ();
  save_io : py ();
  container_str : json → pystr }.

(** Computations that read and change the world and may raise. *)
Definition M (A : Type) : Type := world → py A * world.

#[export] Instance M_ret : MRet M := λ A a w, (Ret a, w).

#[export] Instance M_bind : MBind M := λ A B k m w,
  match m w with
  | (Ret a, w1) => k a w1
  | (Raise e, w1) => (Raise e, w1)
  end.

Definition lift {A} (m : py A) : M A := λ w, (m, w).

Definition print (msg : message) : M () := λ w,
  (Ret (), World (requests w) (console w ++ [msg]) (output_file w)).

(** [try: body / except Exception as e: handler e]. *)
Definition try_except {A} (body : M A) (handler : exn → M A) : M A := λ w,
  match body w with
  | (Ret a, w1) => (Ret a, w1)
  | (Raise e, w1) => handler e w1
  end.

(** ** Lookup resolver *)

(** [(cid, smiles, status)]. *)
Definition lookup_result : Type := json * json * pystr.

Definition not_found : lookup_result := (JNull, JNull, lit "not found").

(** The three status labels. *)
Definition labels : list pystr :=
  [lit "compound found"; lit "substance"; lit "not found"].

Definition base_url : pystr := lit "https://pubchem.ncbi.nlm.nih.gov/rest/pug/".

(** The f-string of [get_pubchem_info], for a [compound_name] that has
    been through [replace_special_characters]. *)
Definition lookup_url (is_substance : bool) (compound_name : pystr) : pystr :=
  base_url
  ++ (if is_substance then lit "substance" else lit "compound")
  ++ lit "/name/"
  ++ replace_special_characters_for_hyperlink (CStr compound_name)
  ++ lit "/property/CanonicalSMILES/JSON".

(** [response.raise_for_status()]: statuses 400 to 599 raise. *)
Definition raise_for_status (r : response) : py () :=
  if ((400 <=? status_code r) && (status_code r <? 600))%Z
  then Raise (HTTPError (status_code r))
  else Ret ().

Definition response_json (r : response) : py json :=
  match body r with
  | Some data => Ret data
  | None => Raise JSONDecodeError
  end.

(** [data['PropertyTable']['Properties'][0]]. *)
Definition first_property (data : json) : py json :=
  t ← getitem_str data (lit "PropertyTable");
  ps ← getitem_str t (lit "Properties");
  getitem_0 ps.

(** The statements of the [try] block that follow [requests.get]. *)
Definition read_response (is_substance : bool) (r : response)
    : py lookup_result :=
  _ ← raise_for_status r;
  data ← response_json r;
  p ← first_property data;
  cid ← getitem_str p (lit "CID");
  p' ← first_property data;
  smiles ← getitem_str p' (lit "CanonicalSMILES");
  Ret (cid, smiles,
       if negb is_substance then lit "compound found" else lit "substance").

(** *** Classifying a reply *)

(** The statuses [raise_for_status] raises for. *)
Definition http_failure (status : Z) : Prop := (400 ≤ status < 600)%Z.

(** [data] holds a property table whose first entry carries [cid] and
    [smiles]. *)
Definition property_table (data cid smiles : json) : Prop :=
  ∃ t ps p,
    getitem_str data (lit "PropertyTable") = Ret t
    ∧ getitem_str t (lit "Properties") = Ret ps
    ∧ getitem_0 ps = Ret p
    ∧ getitem_str p (lit "CID") = Ret cid
    ∧ getitem_str p (lit "CanonicalSMILES") = Ret smiles.

(** The entity exists and the response is well formed. *)
Inductive lookup_succeeds : http_reply → json → json → Prop :=
| Succeeds r data cid smiles :
    ¬ http_failure (status_code r) →
    body r = Some data →
    property_table data cid smiles →
    lookup_succeeds (Reply r) cid smiles.

(** The endpoint signals that there is no such entity. *)
Inductive lookup_missing : http_reply → Prop :=
| Missing r : status_code r = 404%Z → lookup_missing (Reply r).

(** Every other way a lookup can go: no response, a failure status other
    than 404, a body that is not JSON, a document without the property
    table. *)
Inductive lookup_error : http_reply → Prop :=
| TransportFailure : lookup_error NoReply
| FailureStatus r :
    http_failure (status_code r) → status_code r ≠ 404%Z →
    lookup_error (Reply r)
| NotJson r :
    ¬ http_failure (status_code r) → body r = None →
    lookup_error (Reply r)
| Malformed r data :
    ¬ http_failure (status_code r) → body r = Some data →
    (∀ cid smiles, ¬ property_table data cid smiles) →
    lookup_error (Reply r).

(** The successful reply once more, read off the document itself: the
    status is no failure and the body is a JSON object whose property table
    is an object whose properties are a list whose first entry is an object
    holding the identifier [cid] and the structure [smiles]. *)
Inductive reply_carries : http_reply → json → json → Prop :=
| ReplyCarries status doc table entry others cid smiles :
    ¬ (400 ≤ status < 600)%Z →
    binding doc (lit "PropertyTable") (JDict table) →
    binding table (lit "Properties") (JList (JDict entry :: others)) →
    binding entry (lit "CID") cid →
    binding entry (lit "CanonicalSMILES") smiles →
    reply_carries (Reply (Response status (Some (JDict doc)))) cid smiles.

Section Script.

Variable env : environment.

(** The reply to the next request of the run. *)
Definition next_reply (w : world) (url : pystr) : http_reply :=
  remote env (length (requests w)) url.

(** [requests.get(url)]. *)
Definition requests_get (url : pystr) : M response := λ w,
  (match next_reply w url with
   | NoReply => Raise RequestException
   | Reply r => Ret r
   end,
   World (requests w ++ [url]) (console w) (output_file w)).

(** The [try] block of [get_pubchem_info]. *)
Definition try_lookup (compound_name : pystr) (is_substance : bool)
    : M lookup_result :=
  response ← requests_get (lookup_url is_substance compound_name);
  lift (read_response is_substance response).

Definition depth (is_substance : bool) : nat :=
  if is_substance then 0 else 1.

(** [get_pubchem_info]. The first [with] is the [try] block, the clauses
    under it are the two [except] blocks; in the first of them
    [response.status_code] is the status the [HTTPError] was raised for. *)
Equations get_pubchem_info (compound_name : cell) (is_substance : bool)
    (w : world) : py lookup_result * world
    by wf (depth is_substance) lt :=
  get_pubchem_info compound_name is_substance w
    with try_lookup (replace_special_characters compound_name)
           is_substance w := {
    | (Ret r, w1) := (Ret r, w1);
    | (Raise (HTTPError status), w1)
        with is_substance, (status =? 404)%Z := {
        | false, true :=
            get_pubchem_info
              (CStr (replace_special_characters compound_name)) true w1;
        | true, true :=
            (_ ← print (SubstanceNotFound
                          (replace_special_characters compound_name));
             mret not_found) w1;
        | _, false :=
            (_ ← print (HttpErrorOccurred (HTTPError status));
             mret not_found) w1 };
    | (Raise err, w1) :=
        (_ ← print (ErrorOccurred err); mret not_found) w1 }.

(** ** Report builder *)

(** A row of [results]: the compound, its identifier, its structure, the
    status and an empty string for the hyperlink. *)
Record report_row := ReportRow {
  r_name : cell;
  r_cid : json;
  r_smiles : json;
  r_status : pystr;
  r_hyperlink : pystr }.

(** The [for] loop of [main]. *)
Fixpoint resolve_rows (compound_names : list cell)
    (results : list report_row) : M (list report_row) :=
  match compound_names with
  | [] => mret results
  | compound :: rest =>
      r ← get_pubchem_info compound false;
      let '(cid, smiles, status) := r in
      resolve_rows rest
        (results ++ [ReportRow compound cid smiles status []])
  end.

(** The value [DataFrame.to_excel] hands to openpyxl for an entry of the
    frame: numbers, booleans and strings as they are, anything else as its
    [str()]. *)
Definition cell_of_json (v : json) : cell :=
  match v with
  | JNull => CNone
  | JBool b => CBool b
  | JInt z => CInt z
  | JFloat f => CFloat f
  | JStr s => CStr s
  | JList _ | JDict _ => CStr (container_str env v)
  end.

(** A value as it is found in the workbook after it was written and read
    back: missing values are written as empty strings, an empty string is
    read back as [None], and a float as the file kept it. *)
Definition xlsx_value (v : cell) : cell :=
  match v with
  | CNone | CNaN | CStr [] => CNone
  | CFloat f =>
      match f_reloaded f with
      | None => CFloat f
      | Some (inl z) => CInt z
      | Some (inr g) => CFloat g
      end
  | _ => v
  end.

Definition columns : list cell :=
  [ CStr (lit "Compound name"); CStr (lit "PubChem ID"); CStr (lit "SMILES");
    CStr (lit "Status"); CStr (lit "Hyperlink") ].

Definition frame_row (r : report_row) : list cell :=
  [ r_name r; cell_of_json (r_cid r); cell_of_json (r_smiles r);
    CStr (r_status r); CStr (r_hyperlink r) ].

(** A freshly written cell: a value and no style of interest. *)
Definition written (v : cell) : xcell := XCell (xlsx_value v) None None.

Fixpoint write_row (row col : nat) (values : list cell) (ws : worksheet)
    : worksheet :=
  match values with
  | [] => ws
  | v :: rest => write_row row (S col) rest (<[(row, col) := written v]> ws)
  end.

Fixpoint write_rows (row : nat) (rows : list (list cell)) (ws : worksheet)
    : worksheet :=
  match rows with
  | [] => ws
  | r :: rest => write_rows (S row) rest (write_row row 1 r ws)
  end.

(** The sheet [to_excel(index=False)] writes: the column names in row 1,
    the records below. *)
Definition sheet_of_frame (results : list report_row) : worksheet :=
  write_rows 1 (columns :: map frame_row results) ∅.

Definition set_output (ws : worksheet) : M () := λ w,
  (Ret (), World (requests w) (console w) (Some ws)).

(** [result_df.to_excel(output_file, index=False, engine='openpyxl')]. A
    write that fails is taken to leave the file as it was. *)
Definition to_excel (results : list report_row) : M () :=
  _ ← lift (to_excel_io env);
  set_output (sheet_of_frame results).

Definition read_output : M worksheet := λ w,
  (match output_file w with
   | Some ws => Ret ws
   | None => Raise OSError
   end, w).

(** [load_workbook(output_file)] and [workbook.active]. *)
Definition load_workbook : M worksheet :=
  _ ← lift (load_workbook_io env);
  read_output.

(** [workbook.save(output_file)]. *)
Definition workbook_save (ws : worksheet) : M () :=
  _ ← lift (save_io env);
  set_output ws.

Definition fill_colors : list (pystr * pattern_fill) :=
  [ (lit "compound found",
      PatternFill (lit "92D050") (lit "92D050") (lit "solid"));
    (lit "substance",
      PatternFill (lit "FFC000") (lit "FFC000") (lit "solid"));
    (lit "not found",
      PatternFill (lit "FF3300") (lit "FF3300") (lit "solid")) ].

(** [fill_colors[status]] when [status in fill_colors]; only strings are
    equal to a key. *)
Definition fill_colors_get (status : cell) : option pattern_fill :=
  match status with
  | CStr s => dict_get fill_colors s
  | _ => None
  end.

Definition query_url (hyperlink_name : pystr) : pystr :=
  lit "https://pubchem.ncbi.nlm.nih.gov/#query=" ++ hyperlink_name.

(** [range(a, b)]. *)
Definition range (a b : nat) : list nat := seq a (b - a).

(** The body of the styling loop. *)
Definition style_row (ws : worksheet) (row : nat) : worksheet :=
  let ws := touch (row, col_D) ws in
  let status := value (ws_get ws (row, col_D)) in
  match fill_colors_get status with
  | Some f =>
      let ws := set_fill (row, col_D) f ws in
      if eq_str status (lit "not found") then
        let ws := touch (row, col_A) ws in
        let compound_name := value (ws_get ws (row, col_A)) in
        if truthy compound_name then
          let hyperlink_name :=
            replace_special_characters_for_hyperlink compound_name in
          let hyperlink := query_url hyperlink_name in
          let ws :=
            set_hyperlink (row, col_E) (Hyperlink (row, col_E) hyperlink) ws in
          set_value (row, col_E) (CStr hyperlink_name) ws
        else ws
      else ws
  | None => ws
  end.

(** [for row in range(2, worksheet.max_row + 1): ...]. *)
Definition styling_pass (ws : worksheet) : worksheet :=
  foldl style_row ws (range 2 (max_row ws + 1)).

(** [sum(1 for row in range(2, worksheet.max_row + 1)
         if worksheet[f'D{row}'].value == label)]. After the styling loop
    every cell read here exists, so the reads leave the sheet as it is. *)
Definition count_status (ws : worksheet) (label : pystr) : nat :=
  length (List.filter (λ row, eq_str (value (ws_get ws (row, col_D))) label)
            (range 2 (max_row ws + 1))).

(** The summary statistics and the eight cells that hold them. *)
Definition write_summary (ws : worksheet) : worksheet :=
  let total_compounds := (Z.of_nat (max_row ws) - 1)%Z in
  let total_compounds_found := count_status ws (lit "compound found") in
  let total_substances_found := count_status ws (lit "substance") in
  let total_not_found := count_status ws (lit "not found") in
  let summary_start_row := max_row ws + 2 in
  let ws := set_value (summary_start_row, col_A)
              (CStr (lit "Total number of compounds:")) ws in
  let ws := set_value (summary_start_row, col_B) (CInt total_compounds) ws in
  let ws := set_value (summary_start_row + 1, col_A)
              (CStr (lit "Total number of compounds found:")) ws in
  let ws := set_value (summary_start_row + 1, col_B)
              (CInt (Z.of_nat total_compounds_found)) ws in
  let ws := set_value (summary_start_row + 2, col_A)
              (CStr (lit "Total number of substances found:")) ws in
  let ws := set_value (summary_start_row + 2, col_B)
              (CInt (Z.of_nat total_substances_found)) ws in
  let ws := set_value (summary_start_row + 3, col_A)
              (CStr (lit "Total number of compounds not found:")) ws in
  set_value (summary_start_row + 3, col_B)
    (CInt (Z.of_nat total_not_found)) ws.

Definition apply_formatting : M () :=
  worksheet ← load_workbook;
  workbook_save (write_summary (styling_pass worksheet)).

(** [main]. The first [try] returns from its [except] block; [os.makedirs]
    stands between the two [try] statements, outside both. *)
Definition main : M () :=
  match read_excel env with
  | Raise e => print (ErrorReading e)
  | Ret compound_names =>
      results ← resolve_rows compound_names [];
      _ ← lift (makedirs env);
      try_except
        (_ ← to_excel results;
         _ ← apply_formatting;
         print ProcessedFileSaved)
        (λ e, print (ErrorSaving e))
  end.

End Script.

(** ** What the styling loop leaves in a cell *)

(** The cell at ([row], [col]) once the loop body has run for [row], read
    off the cells of that row before it ran. *)
Definition styled (ws : worksheet) (row col : nat) : xcell :=
  let status := value (ws_get ws (row, col_D)) in
  let compound_name := value (ws_get ws (row, col_A)) in
  let old := ws_get ws (row, col) in
  match fill_colors_get status with
  | None => old
  | Some f =>
      if decide (col = col_D) then XCell (value old) (Some f) (hyperlink old)
      else if decide (col = col_E) then
        if eq_str status (lit "not found") && truthy compound_name then
          let hyperlink_name :=
            replace_special_characters_for_hyperlink compound_name in
          XCell (CStr hyperlink_name) (fill old)
            (Some (Hyperlink (row, col_E) (query_url hyperlink_name)))
        else old
      else old
  end.

(** The number of rows among the [n] rows below the header whose status
    cell holds [label]. *)
Definition rows_with_status (ws : worksheet) (n : nat) (label : pystr) : nat :=
  length (List.filter (λ row, eq_str (value (ws_get ws (row, col_D))) label)
            (seq 2 n)).

(** ** Sample runs *)

(** No reply of the sample runs carries a list or an object as identifier
    or structure, so their [container_str] is never consulted. *)
Definition no_container : json → pystr := λ _, [].

Definition aspirin_table : json :=
  JDict [(lit "PropertyTable",
          JDict [(lit "Properties",
                  JList [JDict [(lit "CID", JInt 2244);
                                (lit "CanonicalSMILES",
                                 JStr (lit "CC(=O)OC1=CC=CC=C1C(=O)O"))]])])].

(** A remote that knows nothing as a compound and everything as a
    substance. *)
Definition substance_only : environment :=
  Environment
    (λ n _, match n with
            | 0 => Reply (Response 404 None)
            | _ => Reply (Response 200 (Some aspirin_table))
            end)
    (Ret [CStr (lit "aspirin")]) (Ret ()) (Ret ()) (Ret ()) (Ret ()) no_container.

(** A remote that is down. *)
Definition unreachable : environment :=
  Environment (λ _ _, NoReply)
    (Ret [CStr (lit "aspirin"); CStr (lit "caffeine")])
    (Ret ()) (Ret ()) (Ret ()) (Ret ()) no_container.

Definition fresh : world := World [] [] None.

(** The remote of [substance_only] and a disk that cannot take the final
    save. *)
Definition save_fails : environment :=
  Environment (remote substance_only) (read_excel substance_only)
    (Ret ()) (Ret ()) (Ret ()) (Raise OSError) no_container.

(** A column holding the numbers 0 and 7, and a remote that knows
    neither. *)
Definition zero_names : environment :=
  Environment (λ _ _, Reply (Response 404 None))
    (Ret [CInt 0; CInt 7]) (Ret ()) (Ret ()) (Ret ()) (Ret ()) no_container.

Definition tocopherol_table : json :=
  JDict [(lit "PropertyTable",
          JDict [(lit "Properties",
                  JList [JDict [(lit "CID", JInt 14985);
                                (lit "CanonicalSMILES",
                                 JStr (lit "CC1=C(C2=C(CCC(O2)(C)CCCC(C)CCCC(C)CCCC(C)C)C(=C1O)C)C"))]])])].

(** A remote that answers one URL only, the substance lookup of
    "alpha-tocopherol%2c%20DL", and has 404 for every other request. *)
Definition one_substance : environment :=
  Environment
    (λ _ url,
       if bool_decide (url = lit "https://pubchem.ncbi.nlm.nih.gov/rest/pug/substance/name/alpha-tocopherol%2c%20DL/property/CanonicalSMILES/JSON")
       then Reply (Response 200 (Some tocopherol_table))
       else Reply (Response 404 None))
    (Ret [CStr (alpha_chr :: lit "-tocopherol, DL"); CStr (lit "aspirin")])
    (Ret ()) (Ret ()) (Ret ()) (Ret ()) no_container.

(** The float 7.0, which a workbook hands back as the int 7. *)
Definition seven : pyfloat := Float (lit "7.0") false (Some (inl 7%Z)).

(** A column holding the float 7.0 and a name, and a remote that knows
    neither. *)
Definition float_names : environment :=
  Environment (λ _ _, Reply (Response 404 None))
    (Ret [CFloat seven; CStr (lit "aspirin")])
    (Ret ()) (Ret ()) (Ret ()) (Ret ()) no_container.

(** The sheet a run leaves on disk (empty when it leaves none). *)
Definition output_sheet (run : py () * world) : worksheet :=
  default ∅ (output_file run.2).

(** A remote that knows every name as a compound. *)
Definition knows_all : environment :=
  Environment (λ _ _, Reply (Response 200 (Some aspirin_table)))
    (Ret [CStr (lit "aspirin")]) (Ret ()) (Ret ()) (Ret ()) (Ret ()) no_container.

(** ** Rows with a status the script does not know *)

Definition count_unlabelled (ws : worksheet) : nat :=
  length (List.filter
            (λ row, match fill_colors_get (value (ws_get ws (row, col_D))) with
                    | Some _ => false
                    | None => true
                    end)
            (range 2 (max_row ws + 1))).

(** ** The output path *)

(** [os.path] as it is on POSIX systems, where the separator is the
    slash. *)
Definition sep_chr : codepoint := 47%N.

(** [p.rfind('/') + 1]. *)
Fixpoint rfind_sep_succ (p : pystr) : nat :=
  match p with
  | [] => 0
  | c :: t =>
      match rfind_sep_succ t with
      | 0 => if (c =? sep_chr)%N then 1 else 0
      | S i => S (S i)
      end
  end.

(** [s.rstrip('/')]. *)
Fixpoint rstrip_sep (s : pystr) : pystr :=
  match s with
  | [] => []
  | c :: t =>
      match rstrip_sep t with
      | [] => if (c =? sep_chr)%N then [] else [c]
      | r => c :: r
      end
  end.

(** [s == '/' * len(s)]. *)
Definition all_sep (s : pystr) : bool := forallb (N.eqb sep_chr) s.

(** [s.endswith('/')]. *)
Definition ends_with_sep (s : pystr) : bool :=
  match last s with
  | Some c => (c =? sep_chr)%N
  | None => false
  end.

Definition basename (p : pystr) : pystr := drop (rfind_sep_succ p) p.

Definition dirname (p : pystr) : pystr :=
  let head := take (rfind_sep_succ p) p in
  if negb (bool_decide (head = [])) && negb (all_sep head)
  then rstrip_sep head
  else head.

(** [os.path.join(a, b)]. *)
Definition path_join (a b : pystr) : pystr :=
  if starts_with [sep_chr] b then b
  else if bool_decide (a = []) || ends_with_sep a then a ++ b
  else a ++ [sep_chr] ++ b.

(** [output_file] of [main]. *)
Definition output_path (input_file : pystr) : pystr :=
  path_join (dirname input_file) (lit "processed_" ++ basename input_file).

(** [os.makedirs(name, exist_ok=True)]: the empty path cannot be created,
    whatever the file system holds; for every other path the file system
    decides. *)
Definition os_makedirs (mkdir : pystr → py ()) (name : pystr) : py () :=
  if bool_decide (name = []) then Raise OSError else mkdir name.

(** A workbook with a found row, a row that was not found and a row whose
    status the script does not know. *)
Definition sample_sheet : worksheet :=
  write_rows 1
    [ columns;
      [CStr (lit "aspirin"); CInt 2244; CStr (lit "CC"); 
       CStr (lit "compound found"); CStr []];
      [CStr (lit "1,2-di " ++ [beta_chr]); CNone; CNone;
       CStr (lit "not found"); CStr []];
      [CStr (lit "caffeine"); CNone; CNone; CStr (lit "pending"); CStr []] ]
    ∅.

(** The three fills of [fill_colors]. *)
Definition green : pattern_fill :=
  PatternFill (lit "92D050") (lit "92D050") (lit "solid").
Definition amber : pattern_fill :=
  PatternFill (lit "FFC000") (lit "FFC000") (lit "solid").
Definition red : pattern_fill :=
  PatternFill (lit "FF3300") (lit "FF3300") (lit "solid").

(** ** What a row of the results can be *)

(** A row ends with an empty hyperlink; it is either not found, with no
    identifier and no structure, or found under one of the two other
    labels. *)
Definition row_ok (r : report_row) : Prop :=
  r_hyperlink r = []
  ∧ ((r_status r = lit "not found" ∧ r_cid r = JNull ∧ r_smiles r = JNull)
     ∨ r_status r = lit "compound found"
     ∨ r_status r = lit "substance").

(** The rows that ended as not found. *)
Definition missing_rows (rows : list report_row) : list report_row :=
  List.filter (λ r, bool_decide (r_status r = lit "not found")) rows.

(** A run started on a bare file name, in a directory where anything can
    be created. *)
Definition bare_file_name : environment :=
  Environment (remote knows_all) (read_excel knows_all)
    (os_makedirs (λ _, Ret ()) (dirname (output_path (lit "names.xlsx"))))
    (Ret ()) (Ret ()) (Ret ()) no_container.

(** A path without separator. *)
Definition sep_free (p : pystr) : Prop := Forall (λ c, c ≠ sep_chr) p.

(** * Properties *)

(** ** Strings and the name normalizer *)

Section Strings.

#[local] Open Scope N_scope.

Lemma str_replace_chr k new s :
  str_replace [k] new s = flat_map (subst_chr k new) s.
Proof.
  unfold str_replace.
  induction s as [|c t IH]; [done|].
  cbn [replace_from starts_with flat_map length Nat.sub].
  unfold subst_chr at 1. rewrite andb_true_r, (N.eqb_sym k c), IH.
  by destruct (c =? k).
Qed.

Lemma flat_map_flat_map {A B C} (f : B → list C) (g : A → list B) l :
  flat_map f (flat_map g l) = flat_map (λ a, flat_map f (g a)) l.
Proof.
  induction l as [|a l IH]; [done|].
  cbn. by rewrite flat_map_app, IH.
Qed.

Lemma flat_map_singleton_id (f : codepoint → pystr) s :
  Forall (λ c, f c = [c]) s → flat_map f s = s.
Proof.
  induction 1 as [|c t Hc _ IH]; [done|].
  cbn. by rewrite Hc, IH.
Qed.

Lemma apply_greek_replacements s :
  apply_replacements greek_replacements s = flat_map greek_subst s.
Proof.
  unfold apply_replacements, greek_replacements, greek_subst.
  cbn [fold_left fst snd]. rewrite !str_replace_chr.
  rewrite (flat_map_flat_map (subst_chr beta_chr _)).
  rewrite (flat_map_flat_map (subst_chr gamma_chr _)).
  by rewrite (flat_map_flat_map (subst_chr delta_chr _)).
Qed.

Lemma apply_hyperlink_replacements s :
  apply_replacements hyperlink_replacements s = flat_map hyperlink_subst s.
Proof.
  unfold apply_replacements, hyperlink_replacements, hyperlink_subst, greek_subst.
  cbn [fold_left fst snd]. rewrite !str_replace_chr.
  rewrite (flat_map_flat_map (subst_chr space_chr _)).
  rewrite (flat_map_flat_map (subst_chr alpha_chr _)).
  rewrite (flat_map_flat_map (subst_chr beta_chr _)).
  rewrite (flat_map_flat_map (subst_chr gamma_chr _)).
  rewrite (flat_map_flat_map (subst_chr delta_chr _)).
  apply flat_map_ext. intros c.
  rewrite (flat_map_flat_map (subst_chr beta_chr _)).
  rewrite (flat_map_flat_map (subst_chr gamma_chr _)).
  by rewrite (flat_map_flat_map (subst_chr delta_chr _)).
Qed.

Lemma percent_encode_subst s :
  percent_encode s = flat_map percent_subst s.
Proof.
  unfold percent_encode, percent_subst.
  by rewrite !str_replace_chr, flat_map_flat_map.
Qed.

(** Case analysis of a character against the six keys of the tables. *)
Ltac key_cases c tac :=
  destruct (N.eqb_spec c comma_chr) as [->|?]; [by tac|];
  destruct (N.eqb_spec c space_chr) as [->|?]; [by tac|];
  destruct (N.eqb_spec c alpha_chr) as [->|?]; [by tac|];
  destruct (N.eqb_spec c beta_chr) as [->|?]; [by tac|];
  destruct (N.eqb_spec c gamma_chr) as [->|?]; [by tac|];
  destruct (N.eqb_spec c delta_chr) as [->|?]; [by tac|].

Lemma subst_chr_ne k new c : c ≠ k → subst_chr k new c = [c].
Proof. intros H. unfold subst_chr. by rewrite (proj2 (N.eqb_neq c k) H). Qed.

Ltac other_chr :=
  repeat (rewrite subst_chr_ne by assumption; cbn [flat_map app]).

Lemma greek_subst_other c :
  c ∉ greek → greek_subst c = [c].
Proof.
  unfold greek. rewrite !not_elem_of_cons. intros (?&?&?&?&_).
  unfold greek_subst. by other_chr.
Qed.

Lemma hyperlink_subst_commutes c :
  hyperlink_subst c = flat_map percent_subst (greek_subst c).
Proof.
  key_cases c ltac:(vm_compute).
  unfold hyperlink_subst, percent_subst, greek_subst. by other_chr.
Qed.

Lemma hyperlink_subst_clean c :
  Forall (λ d, d ≠ comma_chr ∧ d ≠ space_chr) (hyperlink_subst c).
Proof.
  key_cases c ltac:(apply (bool_decide_unpack _); vm_compute).
  unfold hyperlink_subst, greek_subst. other_chr. by repeat constructor.
Qed.

Lemma greek_subst_greek_free c :
  Forall (λ d, d ∉ greek) (greek_subst c).
Proof.
  destruct (decide (c ∈ greek)) as [Hc|Hc].
  - unfold greek in Hc. rewrite !elem_of_cons, elem_of_nil in Hc.
    destruct Hc as [->|[->|[->|[->|[]]]]];
      by apply (bool_decide_unpack _); vm_compute.
  - rewrite greek_subst_other by done. by repeat constructor.
Qed.

Lemma normalized_greek_free name :
  Forall (λ d, d ∉ greek) (replace_special_characters name).
Proof.
  unfold replace_special_characters. destruct (isna name); [constructor|].
  rewrite apply_greek_replacements. apply Forall_flat_map, Forall_forall.
  intros c _. apply greek_subst_greek_free.
Qed.

Lemma normalize_greek_free s :
  Forall (λ c, c ∉ greek) s → replace_special_characters (CStr s) = s.
Proof.
  intros Hs. unfold replace_special_characters. cbn [isna py_str].
  rewrite apply_greek_replacements. apply flat_map_singleton_id.
  eapply Forall_impl; [exact Hs|]. intros c Hc. by apply greek_subst_other.
Qed.

(** Normalizing a normalized name changes nothing: the recursive call of
    [get_pubchem_info] looks up the same name. *)
Lemma normalize_idempotent name :
  replace_special_characters (CStr (replace_special_characters name))
  = replace_special_characters name.
Proof. apply normalize_greek_free, normalized_greek_free. Qed.

(** *** The tables of the specification *)

Lemma greek_subst_spelled c : greek_subst c = spelled c.
Proof.
  unfold spelled.
  destruct (N.eqb_spec c 0x3b1) as [->|?]; [done|].
  destruct (N.eqb_spec c 0x3b2) as [->|?]; [done|].
  destruct (N.eqb_spec c 0x3b3) as [->|?]; [done|].
  destruct (N.eqb_spec c 0x3b4) as [->|?]; [done|].
  unfold greek_subst. by other_chr.
Qed.

Lemma percent_subst_percent c : percent_subst c = percent c.
Proof.
  unfold percent.
  destruct (N.eqb_spec c 44) as [->|?]; [done|].
  destruct (N.eqb_spec c 32) as [->|?]; [done|].
  unfold percent_subst. by other_chr.
Qed.

Lemma hyperlink_subst_encoded c : hyperlink_subst c = encoded_char c.
Proof.
  unfold encoded_char.
  destruct (N.eqb_spec c 44) as [->|?]; [done|].
  destruct (N.eqb_spec c 32) as [->|?]; [done|].
  rewrite <- greek_subst_spelled. unfold hyperlink_subst. other_chr.
  by rewrite app_nil_r.
Qed.

Lemma normalize_by_table name :
  replace_special_characters name
  = if isna name then [] else flat_map spelled (py_str name).
Proof.
  unfold replace_special_characters. destruct (isna name); [done|].
  rewrite apply_greek_replacements. apply flat_map_ext, greek_subst_spelled.
Qed.

Lemma hyperlink_by_table name :
  replace_special_characters_for_hyperlink name = encoded_name name.
Proof.
  unfold replace_special_characters_for_hyperlink, encoded_name.
  destruct (isna name); [done|].
  rewrite apply_hyperlink_replacements.
  apply flat_map_ext, hyperlink_subst_encoded.
Qed.

Lemma encoded_char_spelled c :
  flat_map encoded_char (spelled c) = encoded_char c.
Proof.
  unfold spelled.
  destruct (N.eqb_spec c 0x3b1) as [->|?]; [done|].
  destruct (N.eqb_spec c 0x3b2) as [->|?]; [done|].
  destruct (N.eqb_spec c 0x3b3) as [->|?]; [done|].
  destruct (N.eqb_spec c 0x3b4) as [->|?]; [done|].
  cbn [flat_map]. by rewrite app_nil_r.
Qed.

(** The name segment of the URL that [get_pubchem_info] builds from the
    normalized name is the encoding of the name it was given. *)
Lemma encoded_normalized_name name :
  replace_special_characters_for_hyperlink
    (CStr (replace_special_characters name))
  = encoded_name name.
Proof.
  rewrite hyperlink_by_table, normalize_by_table.
  unfold encoded_name. cbn [isna py_str].
  destruct (isna name); [done|].
  rewrite flat_map_flat_map. apply flat_map_ext, encoded_char_spelled.
Qed.

Lemma spelled_not_empty c : spelled c ≠ [].
Proof. unfold spelled. by repeat case_match. Qed.

Lemma flat_map_spelled_nil s : flat_map spelled s = [] → s = [].
Proof.
  destruct s as [|c t]; [done|]. cbn [flat_map].
  intros [H _]%app_eq_nil. by apply spelled_not_empty in H.
Qed.

(** *** The loop over the table, value by value *)

Lemma replace_loop_str replacements s :
  replace_loop replacements (CStr s)
  = Ret (CStr (apply_replacements replacements s)).
Proof.
  unfold apply_replacements. revert s.
  induction replacements as [|[key value] rest IH]; intros s; [done|].
  cbn [replace_loop method_replace fold_left fst snd].
  exact (IH (str_replace key value s)).
Qed.

End Strings.

Example replace_overlapping :
  str_replace (lit "aa") (lit "b") (lit "aaaxaa") = lit "baxb".
Proof. reflexivity. Qed.

Example replace_empty_pattern :
  str_replace [] (lit "-") (lit "abc") = lit "-a-b-c-".
Proof. reflexivity. Qed.

Example normalize_tocopherol :
  replace_special_characters (CStr (alpha_chr :: lit "-tocopherol"))
  = lit "alpha-tocopherol".
Proof. reflexivity. Qed.

Example encode_name :
  replace_special_characters_for_hyperlink
    (CStr (lit "1,2-di " ++ [beta_chr]))
  = lit "1%2c2-di%20beta".
Proof. reflexivity. Qed.

Example normalize_int : replace_special_characters (CInt 42) = lit "42".
Proof. reflexivity. Qed.

Example normalize_int_py :
  replace_special_characters_py (CInt 42) = Ret (CStr (lit "42")).
Proof. reflexivity. Qed.

Example normalize_nan_py : replace_special_characters_py CNaN = Ret (CStr []).
Proof. reflexivity. Qed.

(** Without the conversion to [str] the loop raises on a number. *)
Example replace_on_a_number :
  replace_loop greek_replacements (CInt 42) = Raise AttributeError.
Proof. reflexivity. Qed.

Example encoded_name_by_table :
  encoded_name (CStr (lit "1,2-di " ++ [beta_chr])) = lit "1%2c2-di%20beta".
Proof. reflexivity. Qed.

(** C5: [replace_special_characters] never raises: whatever the cell
    holds (nothing, NaN, a boolean, a number or a string), the guard, the
    conversion to [str] and every [replace] of the loop go through, and the
    function returns the string with the four Greek letters spelled out.
    That string is empty for a missing value and for the empty string, and
    for no other value with a non-empty [str()]. *)
Theorem normalize_total name :
  ∃ s,
    replace_special_characters_py name = Ret (CStr s)
    ∧ s = replace_special_characters name
    ∧ s = (if isna name then [] else flat_map spelled (py_str name))
    ∧ (isna name = true ∨ name = CStr [] → s = [])
    ∧ (s = [] → isna name = true ∨ py_str name = []).
Proof.
  exists (replace_special_characters name).
  pose proof (normalize_by_table name) as Htable.
  split_and!; [|done|done| |].
  - unfold replace_special_characters_py, replace_special_characters.
    destruct (isna name); [done|]. apply replace_loop_str.
  - intros [Hna| ->]; [|done].
    unfold replace_special_characters. by rewrite Hna.
  - rewrite Htable. destruct (isna name); [by left|].
    intros H%flat_map_spelled_nil. by right.
Qed.

(** C6: a string without α, β, γ, δ is returned unchanged, so normalizing
    it a second time gives the same string again. *)
Theorem normalize_fixes_greek_free s :
  Forall (λ c, c ∉ greek) s →
  replace_special_characters (CStr s) = s
  ∧ replace_special_characters (CStr (replace_special_characters (CStr s)))
    = replace_special_characters (CStr s).
Proof.
  intros Hs. rewrite normalize_idempotent. split; [|done].
  by apply normalize_greek_free.
Qed.

Lemma normalize_fixes_greek_free_witness :
  Forall (λ c, c ∉ greek) (lit "1,2-dichloroethane")
  ∧ replace_special_characters (CStr (lit "1,2-dichloroethane"))
    = lit "1,2-dichloroethane".
Proof.
  assert (H : Forall (λ c, c ∉ greek) (lit "1,2-dichloroethane"))
    by (apply (bool_decide_unpack _); vm_compute; exact I).
  split; [exact H|].
  exact (proj1 (normalize_fixes_greek_free (lit "1,2-dichloroethane") H)).
Defined.

Lemma hyperlink_after_normalize name :
  replace_special_characters_for_hyperlink name = urlEncode_spec name
  ∧ Forall (λ c, c ≠ comma_chr ∧ c ≠ space_chr)
      (replace_special_characters_for_hyperlink name).
Proof.
  unfold urlEncode_spec, replace_special_characters_for_hyperlink,
    replace_special_characters.
  destruct (isna name); [by split|].
  rewrite apply_hyperlink_replacements, percent_encode_subst,
    apply_greek_replacements, flat_map_flat_map.
  split.
  - apply flat_map_ext, hyperlink_subst_commutes.
  - apply Forall_flat_map, Forall_forall. intros c _.
    apply hyperlink_subst_clean.
Qed.

(** C7: [replace_special_characters_for_hyperlink] is the percent-encoding
    of commas and spaces composed after [replace_special_characters]. Both
    are pinned character by character: the normalizer spells α, β, γ, δ as
    alpha, beta, gamma, delta and keeps every other character, and the
    encoder turns every comma of the normalized name into %2c and every
    space into %20 and keeps the rest, so that for a string the encoder is
    the table of six substitutions applied to each character. Its result
    holds neither a comma nor a space. The source lists the comma and the
    space before the Greek letters in its table; the result is the same in
    either order. *)
Theorem urlEncode_after_normalize name :
  replace_special_characters name
  = (if isna name then [] else flat_map spelled (py_str name))
  ∧ replace_special_characters_for_hyperlink name
    = flat_map percent (replace_special_characters name)
  ∧ replace_special_characters_for_hyperlink name
    = (if isna name then [] else flat_map encoded_char (py_str name))
  ∧ (∀ s, replace_special_characters_for_hyperlink (CStr s)
          = flat_map encoded_char s)
  ∧ replace_special_characters_for_hyperlink name = urlEncode_spec name
  ∧ Forall (λ c, c ≠ comma_chr ∧ c ≠ space_chr)
      (replace_special_characters_for_hyperlink name).
Proof.
  destruct (hyperlink_after_normalize name) as [Hspec Hclean].
  split_and!; [apply normalize_by_table| |apply hyperlink_by_table| |done..].
  - rewrite Hspec. unfold urlEncode_spec. rewrite percent_encode_subst.
    apply flat_map_ext, percent_subst_percent.
  - intros s. apply (hyperlink_by_table (CStr s)).
Qed.

(** ** The lookup resolver *)

Section Resolver.

Context (env : environment).

Lemma get_pubchem_info_eq compound_name is_substance w :
  get_pubchem_info env compound_name is_substance w =
  match try_lookup env (replace_special_characters compound_name)
          is_substance w with
  | (Ret r, w1) => (Ret r, w1)
  | (Raise (HTTPError status), w1) =>
      if (status =? 404)%Z then
        if is_substance
        then (_ ← print (SubstanceNotFound
                           (replace_special_characters compound_name));
              mret not_found) w1
        else get_pubchem_info env
               (CStr (replace_special_characters compound_name)) true w1
      else (_ ← print (HttpErrorOccurred (HTTPError status));
            mret not_found) w1
  | (Raise err, w1) => (_ ← print (ErrorOccurred err); mret not_found) w1
  end.
Proof.
  simp get_pubchem_info.
  destruct (try_lookup _ _ _ _) as [[r|e] w1]; simp get_pubchem_info; [done|].
  destruct e as [status| | | | | | | |]; simp get_pubchem_info; try done.
  destruct is_substance, (status =? 404)%Z eqn:E;
    simp get_pubchem_info; cbn; by rewrite ?E.
Qed.

Lemma try_lookup_eq name is_substance w :
  try_lookup env name is_substance w =
  (match next_reply env w (lookup_url is_substance name) with
   | NoReply => Raise RequestException
   | Reply r => read_response is_substance r
   end,
   World (requests w ++ [lookup_url is_substance name])
     (console w) (output_file w)).
Proof.
  unfold try_lookup, requests_get, mbind, M_bind, lift.
  by destruct (next_reply _ _ _).
Qed.

Lemma first_property_table data cid smiles :
  property_table data cid smiles ↔
  ∃ p, first_property data = Ret p
       ∧ getitem_str p (lit "CID") = Ret cid
       ∧ getitem_str p (lit "CanonicalSMILES") = Ret smiles.
Proof.
  unfold property_table, first_property, mbind, py_bind. split.
  - intros (t & ps & p & -> & -> & ? & ? & ?). eauto.
  - intros (p & Hp & ? & ?).
    destruct (getitem_str data _) as [t|]; [|done].
    destruct (getitem_str t _) as [ps|] eqn:?; [|done]. by exists t, ps, p.
Qed.

Lemma raise_for_status_ok r :
  ¬ http_failure (status_code r) → raise_for_status r = Ret ().
Proof.
  unfold http_failure, raise_for_status. intros H.
  destruct (_ && _)%Z eqn:E; [|done]. exfalso. apply H. lia.
Qed.

Lemma raise_for_status_raises r :
  http_failure (status_code r) →
  raise_for_status r = Raise (HTTPError (status_code r)).
Proof.
  unfold http_failure, raise_for_status. intros H.
  destruct (_ && _)%Z eqn:E; [done|]. lia.
Qed.

Lemma read_response_succeeds is_substance r cid smiles :
  lookup_succeeds (Reply r) cid smiles →
  read_response is_substance r
  = Ret (cid, smiles,
         if is_substance then lit "substance" else lit "compound found").
Proof.
  inversion 1 as [? data ? ? Hst Hbody Htable]; subst.
  apply first_property_table in Htable as (p & Hp & Hcid & Hsmiles).
  unfold read_response, response_json.
  rewrite raise_for_status_ok, Hbody by done. cbn.
  rewrite Hp. cbn. rewrite Hcid. cbn. rewrite Hsmiles. cbn.
  by destruct is_substance.
Qed.

Lemma read_response_inv is_substance r res :
  read_response is_substance r = Ret res →
  ∃ cid smiles, lookup_succeeds (Reply r) cid smiles
    ∧ res = (cid, smiles,
             if is_substance then lit "substance" else lit "compound found").
Proof.
  unfold read_response, raise_for_status, response_json.
  destruct (_ && _)%Z eqn:E; [done|]. cbn.
  destruct (body r) as [data|] eqn:Hbody; [|done]. cbn.
  destruct (first_property data) as [p|] eqn:Hp; [|done]. cbn.
  destruct (getitem_str p (lit "CID")) as [cid|] eqn:Hcid; [|done]. cbn.
  destruct (getitem_str p (lit "CanonicalSMILES")) as [smiles|] eqn:Hsm;
    [|done]. cbn.
  intros [= <-]. exists cid, smiles. split; [|by destruct is_substance].
  econstructor; [unfold http_failure; lia|done|].
  apply first_property_table. eauto.
Qed.

Lemma read_response_missing is_substance r :
  status_code r = 404%Z →
  read_response is_substance r = Raise (HTTPError 404).
Proof.
  intros H. unfold read_response.
  rewrite raise_for_status_raises by (unfold http_failure; lia).
  by rewrite H.
Qed.

Lemma read_response_error is_substance r :
  lookup_error (Reply r) →
  ∃ e, read_response is_substance r = Raise e ∧ e ≠ HTTPError 404.
Proof.
  inversion 1 as [|? Hst Hne|? Hst Hbody|? data Hst Hbody Htable]; subst.
  - exists (HTTPError (status_code r)). unfold read_response.
    rewrite raise_for_status_raises by done. split; [done|congruence].
  - exists JSONDecodeError. unfold read_response, response_json.
    by rewrite raise_for_status_ok, Hbody.
  - destruct (read_response is_substance r) as [res|e] eqn:E.
    + apply read_response_inv in E as (cid & smiles & Hs & _).
      inversion Hs as [? data' ? ? _ Hbody' Ht]; subst.
      rewrite Hbody in Hbody'. injection Hbody' as <-. by destruct (Htable _ _ Ht).
    + exists e. split; [done|]. intros ->.
      unfold read_response in E.
      rewrite raise_for_status_ok in E by done. cbn in E.
      unfold response_json in E. rewrite Hbody in E. cbn in E.
      destruct (first_property data) as [p|[]] eqn:Hp; cbn in E; try done.
      * destruct (getitem_str p (lit "CID")) as [cid|[]] eqn:Hcid; cbn in E;
          try done.
        -- destruct (getitem_str p (lit "CanonicalSMILES")) as [?|[]] eqn:Hsm;
             cbn in E; try done.
           unfold getitem_str in Hsm.
           destruct p; try done. by destruct (dict_get _ _).
        -- unfold getitem_str in Hcid.
           destruct p; try done. by destruct (dict_get _ _).
      * unfold first_property, getitem_str, getitem_0 in Hp.
        repeat (case_match; simplify_eq/=; try done).
Qed.

Lemma lookup_succeeds_functional is_substance r cid smiles res :
  lookup_succeeds (Reply r) cid smiles →
  read_response is_substance r = Ret res →
  res = (cid, smiles,
         if is_substance then lit "substance" else lit "compound found").
Proof.
  intros Hs E. rewrite (read_response_succeeds _ _ _ _ Hs) in E. congruence.
Qed.

(** A reply is of exactly one of the three kinds. *)
Lemma reply_cases reply :
  (∃ cid smiles, lookup_succeeds reply cid smiles)
  ∨ lookup_missing reply ∨ lookup_error reply.
Proof.
  destruct reply as [|r]; [right; right; constructor|].
  destruct (decide (status_code r = 404%Z)) as [H404|H404];
    [right; left; by constructor|].
  destruct (decide (http_failure (status_code r))) as [Hf|Hf];
    [right; right; by constructor|].
  destruct (read_response false r) as [res|e] eqn:E.
  - apply read_response_inv in E as (cid & smiles & Hs & _). left; eauto.
  - right; right. destruct (body r) as [data|] eqn:Hbody;
      [|by apply NotJson].
    eapply Malformed; [done..|]. intros cid smiles Ht.
    assert (Hs : lookup_succeeds (Reply r) cid smiles) by by econstructor.
    by rewrite (read_response_succeeds false _ _ _ Hs) in E.
Qed.

Lemma lookup_missing_not_succeeds reply cid smiles :
  lookup_missing reply → ¬ lookup_succeeds reply cid smiles.
Proof.
  inversion 1 as [r H404]; subst. inversion 1 as [? ? ? ? Hst]; subst.
  apply Hst. unfold http_failure. lia.
Qed.

Lemma lookup_error_not_succeeds reply cid smiles :
  lookup_error reply → ¬ lookup_succeeds reply cid smiles.
Proof.
  intros He Hs. destruct reply as [|r]; [inversion Hs|].
  destruct (read_response_error false r He) as (e & E & _).
  by rewrite (read_response_succeeds false _ _ _ Hs) in E.
Qed.

Lemma lookup_error_not_missing reply :
  lookup_error reply → ¬ lookup_missing reply.
Proof.
  intros He Hm. inversion Hm as [r H404]; subst.
  destruct (read_response_error false r He) as (e & E & Hne).
  rewrite (read_response_missing false r H404) in E. congruence.
Qed.

(** One lookup of the substance kind: a single request, and no further
    call. *)
Lemma substance_lookup compound_name w :
  let name := replace_special_characters compound_name in
  let reply := next_reply env w (lookup_url true name) in
  ∃ res w',
    get_pubchem_info env compound_name true w = (Ret res, w')
    ∧ requests w' = requests w ++ [lookup_url true name]
    ∧ output_file w' = output_file w
    ∧ (∀ cid smiles, lookup_succeeds reply cid smiles →
         res = (cid, smiles, lit "substance"))
    ∧ ((∀ cid smiles, ¬ lookup_succeeds reply cid smiles) →
         res = not_found).
Proof.
  intros name reply. rewrite get_pubchem_info_eq, try_lookup_eq.
  fold name reply. destruct reply as [|r] eqn:Hreply.
  - eexists _, _. split; [reflexivity|]. split_and!; [done..| |done].
    intros ? ? Hs. inversion Hs.
  - destruct (read_response true r) as [res|e] eqn:E.
    + eexists _, _. split; [reflexivity|]. split_and!; [done..| |].
      * intros cid smiles Hs. by apply (lookup_succeeds_functional true r).
      * intros Hno. apply read_response_inv in E as (cid & smiles & Hs & _).
        by destruct (Hno _ _ Hs).
    + assert (Hno : ∀ cid smiles, ¬ lookup_succeeds (Reply r) cid smiles).
      { intros cid smiles Hs.
        by rewrite (read_response_succeeds true _ _ _ Hs) in E. }
      destruct e as [status| | | | | | | |];
        try (eexists _, _; split; [reflexivity|]; split_and!;
             [done..|by intros ? ? ?%Hno|done]).
      destruct (status =? 404)%Z;
        (eexists _, _; split; [reflexivity|]; split_and!;
         [done..|by intros ? ? ?%Hno|done]).
Qed.

(** Whatever the replies, a lookup returns, with one of the three labels,
    and leaves the output file alone. *)
Lemma get_pubchem_info_returns compound_name is_substance w :
  ∃ cid smiles status w',
    get_pubchem_info env compound_name is_substance w
    = (Ret (cid, smiles, status), w')
    ∧ status ∈ labels
    ∧ output_file w' = output_file w.
Proof.
  assert (Hsub : ∀ c w, ∃ cid smiles status w',
    get_pubchem_info env c true w = (Ret (cid, smiles, status), w')
    ∧ status ∈ labels ∧ output_file w' = output_file w).
  { intros c w0.
    destruct (substance_lookup c w0) as ([[cid smiles] status] & w' & E & _ & Hout & Hyes & Hno).
    exists cid, smiles, status, w'. split; [done|]. split; [|done].
    destruct (reply_cases (next_reply env w0
      (lookup_url true (replace_special_characters c))))
      as [(cid' & smiles' & Hs)|[Hm|He]].
    - specialize (Hyes _ _ Hs). injection Hyes as -> -> ->.
      unfold labels. set_solver.
    - assert (H : (cid, smiles, status) = not_found).
      { apply Hno. intros. by apply lookup_missing_not_succeeds. }
      injection H as -> -> ->. unfold labels. set_solver.
    - assert (H : (cid, smiles, status) = not_found).
      { apply Hno. intros. by apply lookup_error_not_succeeds. }
      injection H as -> -> ->. unfold labels. set_solver. }
  destruct is_substance; [apply Hsub|].
  rewrite get_pubchem_info_eq, try_lookup_eq. cbv zeta.
  set (w1 := World _ _ _).
  destruct (next_reply _ _ _) as [|r].
  { eexists _, _, _, _. split; [reflexivity|]. split; [|done].
    unfold labels. set_solver. }
  destruct (read_response false r) as [res|e] eqn:E.
  { apply read_response_inv in E as (cid & smiles & _ & ->).
    eexists _, _, _, _. split; [reflexivity|]. split; [|done].
    unfold labels. set_solver. }
  destruct e as [status| | | | | | | |];
    try (eexists _, _, _, _; split; [reflexivity|]; split; [|done];
         unfold labels; set_solver).
  destruct (status =? 404)%Z.
  - destruct (Hsub (CStr (replace_special_characters compound_name)) w1)
      as (cid & smiles & st & w' & -> & ? & ?).
    by eexists _, _, _, _.
  - eexists _, _, _, _. split; [reflexivity|]. split; [|done].
    unfold labels. set_solver.
Qed.

(** What follows a 404 of the compound lookup, in terms of the f-string
    and of the indexing of the source. *)
Lemma fallback_after_404 compound_name w :
  let name := replace_special_characters compound_name in
  let n := length (requests w) in
  let second := remote env (S n) (lookup_url true name) in
  lookup_missing (remote env n (lookup_url false name)) →
  ∃ res w',
    get_pubchem_info env compound_name false w = (Ret res, w')
    ∧ requests w'
      = requests w ++ [lookup_url false name; lookup_url true name]
    ∧ (∀ cid smiles, lookup_succeeds second cid smiles →
         res = (cid, smiles, lit "substance"))
    ∧ ((∀ cid smiles, ¬ lookup_succeeds second cid smiles) →
         res = not_found).
Proof.
  intros name n second Hmiss. rewrite get_pubchem_info_eq, try_lookup_eq.
  fold name. unfold next_reply. fold n.
  inversion Hmiss as [r H404 Hr]. rewrite (read_response_missing _ _ H404).
  cbn [Z.eqb Pos.eqb].
  set (w1 := World _ _ _).
  destruct (substance_lookup (CStr name) w1)
    as (res & w' & E & Hreq & _ & Hyes & Hno).
  unfold name in E, Hreq, Hyes, Hno. rewrite normalize_idempotent in *.
  fold name in E, Hreq, Hyes, Hno.
  unfold next_reply in Hyes, Hno. cbn [requests w1] in Hreq, Hyes, Hno.
  rewrite length_app in Hyes, Hno. cbn [length] in Hyes, Hno.
  replace (length (requests w) + 1) with (S n) in * by (unfold n; lia).
  fold second in Hyes, Hno.
  exists res, w'. split; [done|]. split_and!; [|done..].
  by rewrite Hreq, <- app_assoc.
Qed.

Lemma binding_dict_get {V} (items : list (pystr * V)) key v :
  binding items key v ↔ dict_get items key = Some v.
Proof.
  split.
  - induction 1 as [|k x rest key v Hk _ IH]; cbn [dict_get].
    + by rewrite bool_decide_eq_true_2.
    + by rewrite bool_decide_eq_false_2.
  - induction items as [|[k x] rest IH]; [done|]. cbn [dict_get].
    case_bool_decide as Hk.
    + intros [= ->]. subst k. constructor.
    + intros H. constructor; auto.
Qed.

(** The two descriptions of a successful reply agree. *)
Lemma reply_carries_succeeds reply cid smiles :
  reply_carries reply cid smiles ↔ lookup_succeeds reply cid smiles.
Proof.
  split.
  - intros [status doc table entry others c s Hst H1 H2 H3 H4].
    apply binding_dict_get in H1, H2, H3, H4.
    econstructor; [exact Hst|reflexivity|].
    exists (JDict table), (JList (JDict entry :: others)), (JDict entry).
    cbn [getitem_str getitem_0]. by rewrite H1, H2, H3, H4.
  - intros [[status b] data c s Hst Hbody (t & ps & p & H1 & H2 & H3 & H4 & H5)].
    cbn [body status_code] in Hst, Hbody. subst b.
    destruct data as [| | | | |?|doc]; try done. cbn [getitem_str] in H1.
    destruct (dict_get doc _) as [t'|] eqn:E1; [|done]. injection H1 as ->.
    destruct t as [| | | | |?|table]; try done. cbn [getitem_str] in H2.
    destruct (dict_get table _) as [ps'|] eqn:E2; [|done]. injection H2 as ->.
    destruct p as [| | | | |?|entry]; try done. cbn [getitem_str] in H4, H5.
    destruct (dict_get entry (lit "CID")) as [c'|] eqn:E4; [|done].
    injection H4 as ->.
    destruct (dict_get entry (lit "CanonicalSMILES")) as [s'|] eqn:E5; [|done].
    injection H5 as ->.
    destruct ps as [| | | |[|]|[|x others]|]; try done.
    injection H3 as ->.
    econstructor; [exact Hst|by apply binding_dict_get..].
Qed.

(** The f-string of line 42 for the name a caller passes, letter by
    letter. *)
Lemma lookup_url_spelled_out is_substance name :
  lookup_url is_substance (replace_special_characters name)
  = (if is_substance
     then lit "https://pubchem.ncbi.nlm.nih.gov/rest/pug/substance/name/"
     else lit "https://pubchem.ncbi.nlm.nih.gov/rest/pug/compound/name/")
    ++ encoded_name name ++ lit "/property/CanonicalSMILES/JSON".
Proof.
  unfold lookup_url. rewrite encoded_normalized_name.
  by destruct is_substance.
Qed.

(** C1: when the compound lookup answers 404, exactly one more request is
    made, to the substance endpoint and for the same encoded name: the two
    URLs differ in the word compound or substance only, and the name
    segment of both is the name with its Greek letters spelled out and its
    commas and spaces percent-encoded. The result is the identifier and the
    structure of the first entry of the property table of that second
    reply, with status "substance", when the reply carries one, and
    (None, None, "not found") when it is a 404 or any other reply. *)
Theorem compound_404_falls_back_once compound_name w :
  let e := encoded_name compound_name in
  let compound_url :=
    lit "https://pubchem.ncbi.nlm.nih.gov/rest/pug/compound/name/"
    ++ e ++ lit "/property/CanonicalSMILES/JSON" in
  let substance_url :=
    lit "https://pubchem.ncbi.nlm.nih.gov/rest/pug/substance/name/"
    ++ e ++ lit "/property/CanonicalSMILES/JSON" in
  let n := length (requests w) in
  let second := remote env (S n) substance_url in
  lookup_missing (remote env n compound_url) →
  ∃ res w',
    get_pubchem_info env compound_name false w = (Ret res, w')
    ∧ requests w' = requests w ++ [compound_url; substance_url]
    ∧ (∀ cid smiles, reply_carries second cid smiles →
         res = (cid, smiles, lit "substance"))
    ∧ (lookup_missing second → res = not_found)
    ∧ ((∀ cid smiles, ¬ reply_carries second cid smiles) →
         res = not_found).
Proof.
  intros e compound_url substance_url n second Hmiss.
  pose proof (fallback_after_404 compound_name w) as H. cbv zeta in H.
  rewrite !lookup_url_spelled_out in H.
  destruct (H Hmiss) as (res & w' & E & Hreq & Hyes & Hno).
  exists res, w'. split_and!; [done..| | |].
  - intros cid smiles Hc. by apply Hyes, reply_carries_succeeds.
  - intros Hm. apply Hno. intros cid smiles.
    by apply lookup_missing_not_succeeds.
  - intros Hnone. apply Hno. intros cid smiles Hs.
    by apply (Hnone cid smiles), reply_carries_succeeds.
Qed.

(** The loop of [main] never stops early: it appends one row for every
    name, in order, each with one of the three labels and an empty
    hyperlink. *)
Lemma resolve_rows_returns compound_names results w :
  ∃ rows w',
    resolve_rows env compound_names results w = (Ret (results ++ rows), w')
    ∧ map r_name rows = compound_names
    ∧ Forall (λ r, r_status r ∈ labels ∧ r_hyperlink r = []) rows
    ∧ output_file w' = output_file w.
Proof.
  revert results w.
  induction compound_names as [|compound rest IH]; intros results w.
  - exists [], w. by rewrite app_nil_r.
  - destruct (get_pubchem_info_returns compound false w)
      as (cid & smiles & status & w1 & E & Hst & Hout).
    destruct (IH (results ++ [ReportRow compound cid smiles status []]) w1)
      as (rows & w' & E' & Hnames & Hrows & Hout').
    exists (ReportRow compound cid smiles status [] :: rows), w'.
    split_and!.
    + cbn [resolve_rows]. unfold mbind at 1, M_bind at 1. rewrite E, E'.
      by rewrite <- app_assoc.
    + cbn. by rewrite Hnames.
    + by constructor.
    + congruence.
Qed.

(** C2: an error of the compound lookup other than a 404 (no response, a
    failure status that is not 404, a body that is not JSON or lacks the
    property table) gives (None, None, "not found") after that single
    request, with no substance lookup, and the loop of [main] goes on with
    the rows that follow until every name has its row. *)
Theorem compound_error_is_not_found compound_name rest results w :
  let name := replace_special_characters compound_name in
  lookup_error (remote env (length (requests w)) (lookup_url false name)) →
  ∃ w',
    get_pubchem_info env compound_name false w = (Ret not_found, w')
    ∧ requests w' = requests w ++ [lookup_url false name]
    ∧ resolve_rows env (compound_name :: rest) results w
      = resolve_rows env rest
          (results ++ [ReportRow compound_name JNull JNull
                         (lit "not found") []]) w'
    ∧ ∃ rows w'',
        resolve_rows env (compound_name :: rest) results w
        = (Ret (results ++ rows), w'')
        ∧ map r_name rows = compound_name :: rest.
Proof.
  intros name Herr.
  assert (E : ∃ w', get_pubchem_info env compound_name false w
                    = (Ret not_found, w')
                    ∧ requests w' = requests w ++ [lookup_url false name]).
  { rewrite get_pubchem_info_eq, try_lookup_eq. fold name.
    unfold next_reply. destruct (remote _ _ _) as [|r]; [by eexists|].
    destruct (read_response_error false r Herr) as (e & -> & Hne).
    destruct e as [status| | | | | | | |]; try by eexists.
    destruct (status =? 404)%Z eqn:E404; [|by eexists].
    apply Z.eqb_eq in E404 as ->. done. }
  destruct E as (w' & E & Hreq). exists w'. split_and!; [done..| |].
  - cbn [resolve_rows]. unfold mbind at 1, M_bind at 1. by rewrite E.
  - destruct (resolve_rows_returns (compound_name :: rest) results w)
      as (rows & w'' & ? & ? & _). by exists rows, w''.
Qed.

End Resolver.

Lemma compound_404_falls_back_once_witness :
  lookup_missing
    (remote one_substance 0
       (lit "https://pubchem.ncbi.nlm.nih.gov/rest/pug/compound/name/alpha-tocopherol%2c%20DL/property/CanonicalSMILES/JSON"))
  ∧ ∃ w',
      get_pubchem_info one_substance
        (CStr (alpha_chr :: lit "-tocopherol, DL")) false fresh
      = (Ret (JInt 14985, JStr (lit "CC1=C(C2=C(CCC(O2)(C)CCCC(C)CCCC(C)CCCC(C)C)C(=C1O)C)C"),
              lit "substance"), w')
      ∧ requests w'
        = [lit "https://pubchem.ncbi.nlm.nih.gov/rest/pug/compound/name/alpha-tocopherol%2c%20DL/property/CanonicalSMILES/JSON";
           lit "https://pubchem.ncbi.nlm.nih.gov/rest/pug/substance/name/alpha-tocopherol%2c%20DL/property/CanonicalSMILES/JSON"].
Proof.
  assert (H : lookup_missing
    (remote one_substance 0
       (lit "https://pubchem.ncbi.nlm.nih.gov/rest/pug/compound/name/alpha-tocopherol%2c%20DL/property/CanonicalSMILES/JSON")))
    by (vm_compute; constructor; reflexivity).
  assert (Hc : reply_carries
    (remote one_substance 1
       (lit "https://pubchem.ncbi.nlm.nih.gov/rest/pug/substance/name/alpha-tocopherol%2c%20DL/property/CanonicalSMILES/JSON"))
    (JInt 14985) (JStr (lit "CC1=C(C2=C(CCC(O2)(C)CCCC(C)CCCC(C)CCCC(C)C)C(=C1O)C)C"))).
  { vm_compute. econstructor.
    - lia.
    - apply binding_here.
    - apply binding_here.
    - apply binding_here.
    - apply binding_later; [discriminate|apply binding_here]. }
  split; [exact H|].
  destruct (compound_404_falls_back_once one_substance
              (CStr (alpha_chr :: lit "-tocopherol, DL")) fresh H)
    as (res & w' & E & Hreq & Hyes & _).
  exists w'. rewrite <- (Hyes _ _ Hc). exact (conj E Hreq).
Defined.

Lemma compound_error_is_not_found_witness :
  lookup_error (remote unreachable 0 (lookup_url false (lit "aspirin")))
  ∧ ∃ w',
      get_pubchem_info unreachable (CStr (lit "aspirin")) false fresh
      = (Ret not_found, w').
Proof.
  assert (H : lookup_error
    (remote unreachable 0 (lookup_url false (lit "aspirin"))))
    by constructor.
  split; [exact H|].
  destruct (compound_error_is_not_found unreachable
              (CStr (lit "aspirin")) [CStr (lit "caffeine")] [] fresh H)
    as (w' & E & _).
  by exists w'.
Defined.

(** ** The workbook *)

Section Sheet.

Context {env : environment}.

Implicit Types (ws : worksheet) (k : nat * nat) (c : xcell).

Lemma ws_get_insert ws k c k' :
  ws_get (<[k := c]> ws) k' = if decide (k = k') then c else ws_get ws k'.
Proof.
  unfold ws_get. rewrite lookup_insert. by case_decide.
Qed.

Lemma ws_get_touch ws k k' : ws_get (touch k ws) k' = ws_get ws k'.
Proof.
  unfold touch. destruct (ws !! k) eqn:E; [done|].
  rewrite ws_get_insert. case_decide as Hk; [|done].
  subst. unfold ws_get. by rewrite E.
Qed.

Lemma ws_get_set_fill ws k f k' :
  ws_get (set_fill k f ws) k'
  = if decide (k = k')
    then XCell (value (ws_get ws k)) (Some f) (hyperlink (ws_get ws k))
    else ws_get ws k'.
Proof. apply ws_get_insert. Qed.

Lemma ws_get_set_value ws k v k' :
  ws_get (set_value k v ws) k'
  = if decide (k = k')
    then XCell v (fill (ws_get ws k)) (hyperlink (ws_get ws k))
    else ws_get ws k'.
Proof. apply ws_get_insert. Qed.

Lemma ws_get_set_hyperlink ws k h k' :
  ws_get (set_hyperlink k h ws) k'
  = if decide (k = k')
    then XCell (match value (ws_get ws k) with
                | CNone => CStr (target h)
                | v => v
                end) (fill (ws_get ws k)) (Some h)
    else ws_get ws k'.
Proof. apply ws_get_insert. Qed.

(** *** [max_row] *)

Lemma max_row_lookup ws k : is_Some (ws !! k) → k.1 ≤ max_row ws.
Proof.
  intros [c Hc]. unfold max_row. case_decide as He.
  - subst. by rewrite lookup_empty in Hc.
  - apply max_list_elem_of_le.
    apply list_elem_of_fmap. exists k. split; [done|].
    apply list_elem_of_fmap. exists (k, c). split; [done|].
    by apply elem_of_map_to_list.
Qed.

Lemma max_row_attained ws :
  ws ≠ ∅ → ∃ k, is_Some (ws !! k) ∧ k.1 = max_row ws.
Proof.
  intros He. unfold max_row. rewrite decide_False by done.
  assert (Hne : (map_to_list ws).*1.*1 ≠ []).
  { intros H. apply fmap_nil_inv, fmap_nil_inv in H.
    by apply map_to_list_empty_iff in H. }
  apply max_list_elem_of in Hne.
  apply list_elem_of_fmap in Hne as (k & Hk & Hin).
  apply list_elem_of_fmap in Hin as ([k' c] & -> & Hin).
  apply elem_of_map_to_list in Hin. exists k'. split; [by eexists|done].
Qed.

Lemma max_row_unique ws m :
  (∀ k, is_Some (ws !! k) → k.1 ≤ m) →
  (∃ k, is_Some (ws !! k) ∧ k.1 = m) →
  max_row ws = m.
Proof.
  intros Hle (k & Hk & <-).
  assert (He : ws ≠ ∅).
  { intros ->. destruct Hk as [c Hc]. by rewrite lookup_empty in Hc. }
  apply Nat.le_antisymm; [|by apply max_row_lookup].
  destruct (max_row_attained ws He) as (k' & Hk' & <-). by apply Hle.
Qed.

Lemma max_row_well_formed ws : well_formed ws → 1 ≤ max_row ws.
Proof.
  intros Hwf. destruct (decide (ws = ∅)) as [->|He].
  - unfold max_row. by rewrite decide_True.
  - destruct (max_row_attained ws He) as (k & Hk & <-). by apply Hwf.
Qed.

(** Writing a cell in a row the sheet already reaches keeps [max_row]. *)
Lemma max_row_insert_within ws k c :
  1 ≤ k.1 ≤ max_row ws → max_row (<[k := c]> ws) = max_row ws.
Proof.
  intros [H1 Hk]. apply max_row_unique.
  - intros k' [c' Hc']. rewrite lookup_insert in Hc'.
    case_decide; [by subst|]. apply max_row_lookup. by eexists.
  - destruct (decide (ws = ∅)) as [->|He].
    + exists k. rewrite lookup_insert_eq. split; [by eexists|].
      unfold max_row in *. rewrite decide_True in * by done. lia.
    + destruct (max_row_attained ws He) as (k' & [c' Hc'] & <-).
      exists k'. split; [|done]. rewrite lookup_insert.
      case_decide; by eexists.
Qed.

Lemma max_row_insert_beyond ws k c :
  max_row ws ≤ k.1 → 1 ≤ k.1 → max_row (<[k := c]> ws) = k.1.
Proof.
  intros Hk H1. apply max_row_unique.
  - intros k' [c' Hc']. rewrite lookup_insert in Hc'.
    case_decide; [by subst|].
    etrans; [apply max_row_lookup; by eexists|done].
  - exists k. rewrite lookup_insert_eq. split; [by eexists|done].
Qed.

Lemma max_row_touch ws k :
  1 ≤ k.1 ≤ max_row ws → max_row (touch k ws) = max_row ws.
Proof.
  intros Hk. unfold touch. destruct (ws !! k); [done|].
  by apply max_row_insert_within.
Qed.

Lemma max_row_insert_eq ws k c m :
  max_row ws = m → 1 ≤ k.1 ≤ m → max_row (<[k := c]> ws) = m.
Proof. intros <- ?. by apply max_row_insert_within. Qed.

Lemma max_row_touch_eq ws k m :
  max_row ws = m → 1 ≤ k.1 ≤ m → max_row (touch k ws) = m.
Proof. intros <- ?. by apply max_row_touch. Qed.

Lemma max_row_style_row ws row :
  1 ≤ row ≤ max_row ws → max_row (style_row ws row) = max_row ws.
Proof.
  intros Hrow. unfold style_row, set_fill, set_hyperlink, set_value.
  repeat case_match;
    repeat (first [apply max_row_insert_eq | apply max_row_touch_eq];
            [|done]);
    done.
Qed.

Lemma max_row_foldl_style_row ws rows :
  Forall (λ row, 1 ≤ row ≤ max_row ws) rows →
  max_row (foldl style_row ws rows) = max_row ws.
Proof.
  revert ws. induction rows as [|row rows IH]; intros ws Hrows; [done|].
  inversion Hrows as [|? ? Hrow Hrest]; subst. cbn [foldl].
  rewrite IH; [by apply max_row_style_row|].
  by rewrite max_row_style_row.
Qed.

Lemma elem_of_range a b i : i ∈ range a b ↔ a ≤ i < b.
Proof. unfold range. rewrite elem_of_seq. lia. Qed.

Lemma max_row_styling_pass ws :
  max_row (styling_pass ws) = max_row ws.
Proof.
  apply max_row_foldl_style_row, Forall_forall.
  intros row Hrow%elem_of_range. lia.
Qed.

(** *** The styling loop, cell by cell *)

Ltac ws_cases :=
  unfold col_A, col_D, col_E in *;
  repeat first
    [ rewrite ws_get_touch | rewrite ws_get_set_fill
    | rewrite ws_get_set_value | rewrite ws_get_set_hyperlink
    | case_decide ];
  cbn [value fill hyperlink]; try congruence.

Lemma ws_get_style_row ws row r col :
  ws_get (style_row ws row) (r, col)
  = if decide (r = row) then styled ws row col else ws_get ws (r, col).
Proof.
  unfold style_row, styled. rewrite !ws_get_touch.
  destruct (fill_colors_get _) as [f|]; [|by ws_cases].
  destruct (eq_str _ _); cbn [andb]; [|by ws_cases].
  rewrite ws_get_touch, ws_get_set_fill.
  rewrite (decide_False (P := (row, col_D) = (row, col_A))) by done.
  rewrite ws_get_touch.
  destruct (truthy _); by ws_cases.
Qed.

Lemma styled_ext ws1 ws2 row col :
  (∀ col', ws_get ws1 (row, col') = ws_get ws2 (row, col')) →
  styled ws1 row col = styled ws2 row col.
Proof. intros H. unfold styled. by rewrite !H. Qed.

Lemma ws_get_foldl_style_row ws rows r col :
  NoDup rows →
  ws_get (foldl style_row ws rows) (r, col)
  = if decide (r ∈ rows) then styled ws r col else ws_get ws (r, col).
Proof.
  revert ws. induction rows as [|row rows IH]; intros ws Hnd; [done|].
  apply NoDup_cons in Hnd as [Hrow Hnd]. cbn [foldl]. rewrite IH by done.
  destruct (decide (r ∈ rows)) as [Hr|Hr].
  - rewrite decide_True by (apply elem_of_cons; by right).
    apply styled_ext. intros col'. rewrite ws_get_style_row.
    rewrite decide_False; [done|]. intros Heq. by subst.
  - rewrite ws_get_style_row. destruct (decide (r = row)) as [->|Hne].
    + by rewrite decide_True by (apply elem_of_cons; by left).
    + by rewrite decide_False by (rewrite elem_of_cons; intros [?|?]; done).
Qed.

Lemma ws_get_styling_pass ws r col :
  ws_get (styling_pass ws) (r, col)
  = if decide (2 ≤ r ≤ max_row ws) then styled ws r col
    else ws_get ws (r, col).
Proof.
  unfold styling_pass. rewrite ws_get_foldl_style_row by apply NoDup_seq.
  destruct (decide (2 ≤ r ≤ max_row ws)).
  - by rewrite decide_True by (apply elem_of_range; lia).
  - by rewrite decide_False by (rewrite elem_of_range; lia).
Qed.

(** The loop never changes a value outside column E, nor a status. *)
Lemma styled_value ws row col :
  col ≠ col_E → value (styled ws row col) = value (ws_get ws (row, col)).
Proof.
  intros Hcol. unfold styled. destruct (fill_colors_get _); [|done].
  repeat case_decide; by subst.
Qed.

Lemma value_styling_pass ws r col :
  col ≠ col_E →
  value (ws_get (styling_pass ws) (r, col)) = value (ws_get ws (r, col)).
Proof.
  intros Hcol. rewrite ws_get_styling_pass.
  case_decide; [by apply styled_value|done].
Qed.

Lemma fill_colors_get_Some status f :
  fill_colors_get status = Some f → ∃ s, status = CStr s ∧ s ∈ labels.
Proof.
  destruct status as [| | | | |s]; try done. cbn [fill_colors_get].
  unfold fill_colors, labels. cbn [dict_get].
  repeat case_bool_decide; try done; intros _; exists s; subst;
    (split; [done|]); set_solver.
Qed.

Lemma eq_str_true v s : eq_str v s = true ↔ v = CStr s.
Proof.
  destruct v; cbn; try (split; [done|congruence]).
  rewrite bool_decide_eq_true. split; congruence.
Qed.

Lemma truthy_nonempty v : truthy v = true → v ≠ CNone ∧ v ≠ CStr [].
Proof. destruct v as [| | | | |[|]]; by cbn. Qed.

(** What the loop writes in column E of a row that was not found. *)
Lemma styling_pass_hyperlink ws r :
  2 ≤ r ≤ max_row ws →
  value (ws_get ws (r, col_D)) = CStr (lit "not found") →
  let compound_name := value (ws_get ws (r, col_A)) in
  let hyperlink_name := replace_special_characters_for_hyperlink compound_name in
  ws_get (styling_pass ws) (r, col_E)
  = if truthy compound_name
    then XCell (CStr hyperlink_name) (fill (ws_get ws (r, col_E)))
           (Some (Hyperlink (r, col_E) (query_url hyperlink_name)))
    else ws_get ws (r, col_E).
Proof.
  intros Hr Hst. cbv zeta. rewrite ws_get_styling_pass, decide_True by done.
  unfold styled. rewrite Hst. cbn -[lit truthy]. done.
Qed.

(** C10: the styling loop changes the fill of no cell outside column D of
    a data row with a known status; it leaves the cells of the name,
    identifier and structure columns as they were; it changes a value only
    in column E of a data row whose status is "not found" and whose name is
    not empty; and it leaves every cell of a row with an unrecognized
    status as it was. *)
Theorem styling_pass_frame ws r col :
  let status := value (ws_get ws (r, col_D)) in
  let compound_name := value (ws_get ws (r, col_A)) in
  (fill (ws_get (styling_pass ws) (r, col)) ≠ fill (ws_get ws (r, col)) →
     col = col_D ∧ 2 ≤ r ≤ max_row ws ∧ is_Some (fill_colors_get status))
  ∧ (col ∈ [col_A; col_B; col_C] →
     ws_get (styling_pass ws) (r, col) = ws_get ws (r, col))
  ∧ (value (ws_get (styling_pass ws) (r, col)) ≠ value (ws_get ws (r, col)) →
     col = col_E ∧ 2 ≤ r ≤ max_row ws
     ∧ status = CStr (lit "not found")
     ∧ truthy compound_name = true
     ∧ compound_name ≠ CNone ∧ compound_name ≠ CStr [])
  ∧ (fill_colors_get status = None →
     ws_get (styling_pass ws) (r, col) = ws_get ws (r, col))
  ∧ (ws_get (styling_pass ws) (r, col) ≠ ws_get ws (r, col) →
     2 ≤ r ≤ max_row ws ∧ is_Some (fill_colors_get status)
     ∧ (col = col_D
        ∨ (col = col_E ∧ status = CStr (lit "not found")
           ∧ truthy compound_name = true))).
Proof.
  cbv zeta. rewrite ws_get_styling_pass. unfold styled.
  destruct (decide (2 ≤ r ≤ max_row ws)) as [Hr|Hr]; [|by split_and!].
  destruct (fill_colors_get _) as [f|] eqn:Hf; [|by split_and!].
  split_and!.
  - repeat case_decide; try done. by destruct (_ && _).
  - rewrite !elem_of_cons, elem_of_nil. unfold col_A, col_B, col_C, col_D, col_E.
    intros [->|[->|[->|[]]]]; by repeat case_decide.
  - repeat case_decide; try done.
    destruct (eq_str _ _) eqn:Hst; [|done]. cbn [andb].
    destruct (truthy _) eqn:Htr; [|done]. intros _.
    apply eq_str_true in Hst. apply truthy_nonempty in Htr as Hne.
    by destruct Hne.
  - done.
  - intros Hchange. split; [done|]. split; [by eexists|].
    destruct (decide (col = col_D)) as [|Hd]; [by left|right].
    destruct (decide (col = col_E)) as [|He]; [|done].
    destruct (eq_str _ _) eqn:Hst; [|done]. cbn [andb] in Hchange.
    destruct (truthy _) eqn:Htr; [|done].
    by apply eq_str_true in Hst.
Qed.

(** *** The summary rows *)

Lemma ws_get_set_value_ne ws k v k' :
  k ≠ k' → ws_get (set_value k v ws) k' = ws_get ws k'.
Proof. intros Hk. by rewrite ws_get_set_value, decide_False. Qed.

Lemma value_set_value ws k v : value (ws_get (set_value k v ws) k) = v.
Proof. by rewrite ws_get_set_value, decide_True. Qed.

Ltac other_key :=
  rewrite ws_get_set_value_ne
    by (unfold col_A, col_B; intros [=]; lia).

Lemma ws_get_write_summary ws r col :
  r < max_row ws + 2 →
  ws_get (write_summary ws) (r, col) = ws_get ws (r, col).
Proof. intros Hr. unfold write_summary. cbv zeta. by do 8 other_key. Qed.

Lemma write_summary_counts ws :
  let start := max_row ws + 2 in
  let final := write_summary ws in
  value (ws_get final (start, col_B)) = CInt (Z.of_nat (max_row ws) - 1)
  ∧ value (ws_get final (start + 1, col_B))
    = CInt (Z.of_nat (count_status ws (lit "compound found")))
  ∧ value (ws_get final (start + 2, col_B))
    = CInt (Z.of_nat (count_status ws (lit "substance")))
  ∧ value (ws_get final (start + 3, col_B))
    = CInt (Z.of_nat (count_status ws (lit "not found"))).
Proof.
  unfold write_summary. cbv zeta. split_and!.
  - do 6 other_key. apply value_set_value.
  - do 4 other_key. apply value_set_value.
  - do 2 other_key. apply value_set_value.
  - apply value_set_value.
Qed.

(** *** The sheet [to_excel] writes *)

Lemma lookup_write_row row col values ws r j :
  write_row row col values ws !! (r, j)
  = match (if decide (r = row ∧ col ≤ j) then values !! (j - col) else None)
    with
    | Some v => Some (written v)
    | None => ws !! (r, j)
    end.
Proof.
  revert col ws. induction values as [|v rest IH]; intros col ws.
  { by case_decide. }
  cbn [write_row]. rewrite IH.
  destruct (decide (r = row ∧ S col ≤ j)) as [[-> Hc]|Hc].
  - rewrite decide_True by lia.
    replace (j - col) with (S (j - S col)) by lia. cbn [lookup list_lookup].
    destruct (rest !! _); [done|]. apply lookup_insert_ne. intros [=]. lia.
  - destruct (decide (r = row ∧ col ≤ j)) as [[-> Hc']|Hc'].
    + assert (j = col) as -> by lia. rewrite Nat.sub_diag. cbn.
      apply lookup_insert_eq.
    + apply lookup_insert_ne. intros [=]. lia.
Qed.

Lemma lookup_write_rows row rows ws r j :
  write_rows row rows ws !! (r, j)
  = match (if decide (row ≤ r ∧ 1 ≤ j)
           then rows !! (r - row) ≫= (.!! (j - 1)) else None)
    with
    | Some v => Some (written v)
    | None => ws !! (r, j)
    end.
Proof.
  revert row ws. induction rows as [|vs rest IH]; intros row ws.
  { by case_decide. }
  cbn [write_rows]. rewrite IH, lookup_write_row.
  destruct (decide (S row ≤ r ∧ 1 ≤ j)) as [[Hr Hc]|Hrc].
  - rewrite (decide_True (P := row ≤ r ∧ 1 ≤ j)) by lia.
    replace (r - row) with (S (r - S row)) by lia. cbn [lookup list_lookup].
    destruct (_ ≫= _); [done|]. rewrite decide_False by lia. done.
  - destruct (decide (row ≤ r ∧ 1 ≤ j)) as [[Hr Hc]|Hrc'].
    + assert (r = row) as -> by lia. rewrite Nat.sub_diag.
      rewrite decide_True by lia. done.
    + rewrite decide_False by lia. done.
Qed.

Lemma frame_row_Some r vs :
  vs = frame_row env r →
  ∃ cid smiles,
    vs = [r_name r; cid; smiles; CStr (r_status r); CStr (r_hyperlink r)].
Proof. intros ->. by eexists _, _. Qed.

Lemma sheet_of_frame_Some results ws :
  ws = sheet_of_frame env results →
  ∃ rows, Forall2 (λ r vs, vs = frame_row env r) results rows
          ∧ ws = write_rows 1 (columns :: rows) ∅.
Proof.
  intros ->. exists (map (frame_row env) results). split; [|done].
  induction results; by constructor.
Qed.

(** Row [i + 2] of the written sheet holds record [i]. *)
Lemma sheet_record results ws i r :
  ws = sheet_of_frame env results →
  results !! i = Some r →
  ws_get ws (i + 2, col_A) = written (r_name r)
  ∧ ws_get ws (i + 2, col_D) = written (CStr (r_status r))
  ∧ ws_get ws (i + 2, col_E) = written (CStr (r_hyperlink r)).
Proof.
  intros (rows & Hrows & ->)%sheet_of_frame_Some Hr.
  destruct (Forall2_lookup_l _ _ _ _ _ Hrows Hr) as (vs & Hvs & Hf).
  apply frame_row_Some in Hf as (cid & smiles & ->).
  unfold ws_get. rewrite !lookup_write_rows.
  rewrite !decide_True by (unfold col_A, col_D, col_E; lia).
  replace (i + 2 - 1) with (S i) by lia.
  change ((columns :: rows) !! S i) with (rows !! i). by rewrite Hvs.
Qed.

Lemma sheet_bounds results ws k :
  ws = sheet_of_frame env results →
  is_Some (ws !! k) → 1 ≤ k.1 ≤ length results + 1.
Proof.
  intros (rows & Hrows & ->)%sheet_of_frame_Some. destruct k as [r j].
  rewrite lookup_write_rows. apply Forall2_length in Hrows.
  case_decide as Hrj; [|by rewrite lookup_empty; intros []].
  destruct ((columns :: rows) !! (r - 1)) as [vs|] eqn:Hvs;
    [|by rewrite lookup_empty; intros []].
  intros _. apply lookup_lt_Some in Hvs. cbn [length fst] in *. lia.
Qed.

Lemma frame_rows_length results rows :
  Forall2 (λ r vs, vs = frame_row env r) results rows →
  Forall (λ vs : list cell, length vs = 5) (columns :: rows).
Proof.
  intros Hrows. constructor; [done|].
  induction Hrows as [|r vs ? ? Hf _ IH]; constructor; [|done].
  by apply frame_row_Some in Hf as (cid & smiles & ->).
Qed.

Lemma sheet_max_row results ws :
  ws = sheet_of_frame env results → max_row ws = length results + 1.
Proof.
  intros Hws. apply max_row_unique.
  - intros k Hk. by apply (sheet_bounds results ws k Hws).
  - exists (length results + 1, 1). split; [|done].
    apply sheet_of_frame_Some in Hws as (rows & Hrows & ->).
    rewrite lookup_write_rows, decide_True by lia.
    replace (length results + 1 - 1) with (length results) by lia.
    pose proof (frame_rows_length _ _ Hrows) as Hlen.
    apply Forall2_length in Hrows.
    destruct (lookup_lt_is_Some_2 (columns :: rows) (length results))
      as [vs Hvs]; [cbn [length]; lia|].
    rewrite Hvs. cbn.
    rewrite Forall_forall in Hlen.
    specialize (Hlen vs (list_elem_of_lookup_2 _ _ _ Hvs)).
    destruct vs; [done|]. by eexists.
Qed.

Lemma sheet_beyond results ws r j :
  ws = sheet_of_frame env results →
  length results + 1 < r → ws_get ws (r, j) = blank.
Proof.
  intros Hws Hr. unfold ws_get. destruct (ws !! (r, j)) eqn:E; [|done].
  assert (H : is_Some (ws !! (r, j))) by by eexists.
  apply (sheet_bounds results ws (r, j) Hws) in H. cbn in H. lia.
Qed.

(** *** Counting statuses *)

Lemma count_status_rows ws label :
  count_status ws label = rows_with_status ws (max_row ws - 1) label.
Proof.
  unfold count_status, rows_with_status, range. do 3 f_equal. lia.
Qed.

Lemma rows_with_status_ext ws1 ws2 n label :
  (∀ row, 2 ≤ row < 2 + n →
     value (ws_get ws1 (row, col_D)) = value (ws_get ws2 (row, col_D))) →
  rows_with_status ws1 n label = rows_with_status ws2 n label.
Proof.
  intros H. unfold rows_with_status. f_equal. apply List.filter_ext_in.
  intros row Hrow%in_seq. by rewrite H.
Qed.

Lemma filter_partition {A} (f g h : A → bool) (l : list A) :
  Forall (λ x, (f x = true ∧ g x = false ∧ h x = false)
               ∨ (f x = false ∧ g x = true ∧ h x = false)
               ∨ (f x = false ∧ g x = false ∧ h x = true)) l →
  length l = length (List.filter f l) + length (List.filter g l)
             + length (List.filter h l).
Proof.
  induction 1 as [|x l Hx _ IH]; [done|]. cbn [List.filter].
  destruct Hx as [(-> & -> & ->)|[(-> & -> & ->)|(-> & -> & ->)]];
    cbn [length]; lia.
Qed.

Lemma label_cases s :
  s ∈ labels →
  let v := CStr s in
  (eq_str v (lit "compound found") = true ∧ eq_str v (lit "substance") = false
   ∧ eq_str v (lit "not found") = false)
  ∨ (eq_str v (lit "compound found") = false
     ∧ eq_str v (lit "substance") = true
     ∧ eq_str v (lit "not found") = false)
  ∨ (eq_str v (lit "compound found") = false
     ∧ eq_str v (lit "substance") = false
     ∧ eq_str v (lit "not found") = true).
Proof.
  unfold labels. rewrite !elem_of_cons, elem_of_nil.
  intros [->|[->|[->|[]]]]; vm_compute; tauto.
Qed.

Lemma rows_with_status_partition ws n :
  (∀ row, 2 ≤ row < 2 + n →
     ∃ s, s ∈ labels ∧ value (ws_get ws (row, col_D)) = CStr s) →
  n = rows_with_status ws n (lit "compound found")
      + rows_with_status ws n (lit "substance")
      + rows_with_status ws n (lit "not found").
Proof.
  intros H. unfold rows_with_status.
  rewrite <- filter_partition; [by rewrite length_seq|].
  apply List.Forall_forall. intros row Hrow%in_seq.
  destruct (H row Hrow) as (s & Hs & ->). by apply label_cases.
Qed.

End Sheet.

(** ** The whole run *)

Section Run.

Context (env : environment).

Lemma to_excel_eq results w :
  to_excel env results w =
  match to_excel_io env with
  | Raise e => (Raise e, w)
  | Ret _ =>
      (Ret (), World (requests w) (console w)
                 (Some (sheet_of_frame env results)))
  end.
Proof.
  unfold to_excel, mbind, M_bind, lift, set_output.
  by destruct (to_excel_io env).
Qed.

Lemma apply_formatting_eq w :
  apply_formatting env w =
  match load_workbook_io env with
  | Raise e => (Raise e, w)
  | Ret _ =>
      match output_file w with
      | None => (Raise OSError, w)
      | Some ws =>
          match save_io env with
          | Raise e => (Raise e, w)
          | Ret _ =>
              (Ret (), World (requests w) (console w)
                         (Some (write_summary (styling_pass ws))))
          end
      end
  end.
Proof.
  unfold apply_formatting, load_workbook, workbook_save, read_output,
    mbind, M_bind, lift, set_output.
  destruct (load_workbook_io env); [|done].
  destruct (output_file w); [|done]. by destruct (save_io env).
Qed.

Lemma main_eq compound_names w :
  read_excel env = Ret compound_names →
  main env w =
  match resolve_rows env compound_names [] w with
  | (Raise e, w1) => (Raise e, w1)
  | (Ret results, w1) =>
      match makedirs env with
      | Raise e => (Raise e, w1)
      | Ret _ =>
          match to_excel env results w1 with
          | (Raise e, w2) => print (ErrorSaving e) w2
          | (Ret _, w2) =>
              match apply_formatting env w2 with
              | (Raise e, w3) => print (ErrorSaving e) w3
              | (Ret _, w3) => print ProcessedFileSaved w3
              end
          end
      end
  end.
Proof.
  intros Hread. unfold main. rewrite Hread.
  unfold mbind, M_bind, lift, try_except.
  destruct (resolve_rows _ _ _ _) as [[results|e] w1]; [|done].
  destruct (makedirs env); [|done].
  destruct (to_excel _ _ _) as [[u|e] w2]; [|done].
  destruct (apply_formatting _ _) as [[u'|e] w3]; [|done].
  done.
Qed.

(** A run that ends with the success message went through every step. *)
Lemma main_saved compound_names w w' :
  read_excel env = Ret compound_names →
  main env w = (Ret (), w') →
  last (console w') = Some ProcessedFileSaved →
  ∃ results ws,
    map r_name results = compound_names
    ∧ Forall (λ r, r_status r ∈ labels ∧ r_hyperlink r = []) results
    ∧ ws = sheet_of_frame env results
    ∧ output_file w' = Some (write_summary (styling_pass ws)).
Proof.
  intros Hread Hmain Hlast. rewrite (main_eq _ _ Hread) in Hmain.
  destruct (resolve_rows_returns env compound_names [] w)
    as (results & w1 & E & Hnames & Hrows & _).
  rewrite E in Hmain. cbn [app] in Hmain.
  destruct (makedirs env); [|done].
  rewrite to_excel_eq in Hmain.
  destruct (to_excel_io env).
  2:{ injection Hmain as <-. cbn in Hlast. by rewrite last_snoc in Hlast. }
  set (ws := sheet_of_frame env results) in Hmain.
  rewrite apply_formatting_eq in Hmain. cbn [output_file] in Hmain.
  destruct (load_workbook_io env).
  2:{ injection Hmain as <-. cbn in Hlast. by rewrite last_snoc in Hlast. }
  destruct (save_io env).
  2:{ injection Hmain as <-. cbn in Hlast. by rewrite last_snoc in Hlast. }
  injection Hmain as <-. by exists results, ws.
Qed.

(** The data rows of the final workbook, read off the records. *)
Lemma final_data_row results ws i r :
  ws = sheet_of_frame env results →
  Forall (λ r, r_status r ∈ labels ∧ r_hyperlink r = []) results →
  results !! i = Some r →
  let final := write_summary (styling_pass ws) in
  value (ws_get final (i + 2, col_A)) = xlsx_value (r_name r)
  ∧ value (ws_get final (i + 2, col_D)) = CStr (r_status r).
Proof.
  intros Hws Hrows Hr final. unfold final.
  pose proof (sheet_max_row _ _ Hws) as Hmax.
  pose proof (lookup_lt_Some _ _ _ Hr) as Hi.
  destruct (sheet_record _ _ _ _ Hws Hr) as (HA & HD & _).
  rewrite !ws_get_write_summary by (rewrite max_row_styling_pass; lia).
  rewrite !value_styling_pass by done. rewrite HA, HD. split; [done|].
  rewrite Forall_forall in Hrows.
  destruct (Hrows r (list_elem_of_lookup_2 _ _ _ Hr)) as [Hst _].
  unfold labels in Hst. rewrite !elem_of_cons, elem_of_nil in Hst.
  by destruct Hst as [->|[->|[->|[]]]].
Qed.

(** What a run leaves in the output file: nothing new, the table as
    [to_excel] wrote it, or the styled table with its summary. *)
Lemma main_output compound_names w r w' :
  read_excel env = Ret compound_names →
  main env w = (r, w') →
  output_file w' = output_file w
  ∨ ∃ results ws,
      map r_name results = compound_names
      ∧ Forall (λ r, r_status r ∈ labels ∧ r_hyperlink r = []) results
      ∧ ws = sheet_of_frame env results
      ∧ (output_file w' = Some ws
         ∨ output_file w' = Some (write_summary (styling_pass ws))).
Proof.
  intros Hread Hmain. rewrite (main_eq _ _ Hread) in Hmain.
  destruct (resolve_rows_returns env compound_names [] w)
    as (results & w1 & E & Hnames & Hrows & Hout).
  rewrite E in Hmain. cbn [app] in Hmain.
  destruct (makedirs env); [|left; by injection Hmain as _ <-].
  rewrite to_excel_eq in Hmain.
  destruct (to_excel_io env); [|left; by injection Hmain as _ <-].
  set (ws := sheet_of_frame env results) in Hmain.
  right. exists results, ws. split_and!; [done..|].
  rewrite apply_formatting_eq in Hmain. cbn [output_file] in Hmain.
  destruct (load_workbook_io env); [|left; by injection Hmain as _ <-].
  destruct (save_io env); [right|left]; by injection Hmain as _ <-.
Qed.

(** The rows of the output table, in terms of [xlsx_value]. *)
Lemma output_rows compound_names w r w' :
  read_excel env = Ret compound_names →
  main env w = (r, w') →
  output_file w' = output_file w
  ∨ ∃ ws,
      output_file w' = Some ws
      ∧ (∀ i name, compound_names !! i = Some name →
           value (ws_get ws (i + 2, col_A)) = xlsx_value name
           ∧ ∃ status, status ∈ labels
                       ∧ value (ws_get ws (i + 2, col_D)) = CStr status)
      ∧ (∀ j, ws_get ws (length compound_names + 2, j) = blank).
Proof.
  intros Hread Hmain.
  destruct (main_output _ _ _ _ Hread Hmain)
    as [Hsame|(results & ws & Hnames & Hrows & Hws & Hout)]; [by left|].
  right.
  pose proof (sheet_max_row _ _ Hws) as Hmax.
  assert (Hlen : length compound_names = length results)
    by (by rewrite <- Hnames, length_map).
  assert (Hlabel : ∀ i r, results !! i = Some r → r_status r ∈ labels).
  { intros i r0 Hr. rewrite Forall_forall in Hrows.
    by destruct (Hrows r0 (list_elem_of_lookup_2 _ _ _ Hr)). }
  destruct Hout as [Hout|Hout]; eexists; (split; [exact Hout|]); split.
  - intros i name Hi. rewrite <- Hnames, list_lookup_fmap in Hi.
    destruct (results !! i) as [r0|] eqn:Hr; [|done]. injection Hi as <-.
    destruct (sheet_record _ _ _ _ Hws Hr) as (HA & HD & _).
    rewrite HA, HD. split; [done|]. exists (r_status r0).
    pose proof (Hlabel _ _ Hr) as Hst. split; [done|].
    unfold labels in Hst. rewrite !elem_of_cons, elem_of_nil in Hst.
    by destruct Hst as [->|[->|[->|[]]]].
  - intros j. apply (sheet_beyond results _ _ _ Hws); lia.
  - intros i name Hi. rewrite <- Hnames, list_lookup_fmap in Hi.
    destruct (results !! i) as [r0|] eqn:Hr; [|done]. injection Hi as <-.
    destruct (final_data_row _ _ _ _ Hws Hrows Hr) as [HA HD].
    split; [done|]. exists (r_status r0). split; [|done]. by eapply Hlabel.
  - intros j.
    rewrite ws_get_write_summary by (rewrite max_row_styling_pass; lia).
    rewrite ws_get_styling_pass, decide_False by lia.
    apply (sheet_beyond results _ _ _ Hws); lia.
Qed.

(** What a workbook hands back for a value that is no float. *)
Lemma xlsx_value_cases name :
  (isna name = true ∨ name = CStr [] → xlsx_value name = CNone)
  ∧ (isna name = false → name ≠ CStr [] → (∀ f, name ≠ CFloat f) →
     xlsx_value name = name).
Proof.
  split.
  - intros [Hna| ->]; [|done]. by destruct name.
  - intros Hna Hne Hfl. destruct name as [| | | |f|[|c s]]; try done.
    by destruct (Hfl f).
Qed.

(** C3: whenever a run writes its output table, the table has one data
    row for each of the N names read, in the order they were read: row
    i + 2 holds the i-th name, as a workbook hands it back, and a status,
    and row N + 2, below the last of them, is blank. A string, an int or a
    boolean comes back as it was written, a missing value or an empty
    string as a blank cell, and a float as the file kept it (7.0 as the
    int 7). *)
Theorem output_has_one_row_per_name compound_names w r w' :
  read_excel env = Ret compound_names →
  main env w = (r, w') →
  output_file w' = output_file w
  ∨ ∃ ws,
      output_file w' = Some ws
      ∧ (∀ i name, compound_names !! i = Some name →
           let a := value (ws_get ws (i + 2, col_A)) in
           a = xlsx_value name
           ∧ (isna name = true ∨ name = CStr [] → a = CNone)
           ∧ (isna name = false → name ≠ CStr [] → (∀ f, name ≠ CFloat f) →
              a = name)
           ∧ ∃ status, status ∈ labels
                       ∧ value (ws_get ws (i + 2, col_D)) = CStr status)
      ∧ (∀ j, ws_get ws (length compound_names + 2, j) = blank).
Proof.
  intros Hread Hmain.
  destruct (output_rows _ _ _ _ Hread Hmain)
    as [Hsame|(ws & Hout & Hrows & Hblank)]; [by left|right].
  exists ws. split_and!; [done| |done].
  intros i name Hi. destruct (Hrows i name Hi) as [HA Hst].
  destruct (xlsx_value_cases name) as [Hnone Hkept].
  cbv zeta. rewrite HA. split_and!; [done|exact Hnone|exact Hkept|exact Hst].
Qed.

(** C4: in the workbook a run saves, the four counts written below the
    table are the number of data rows and the numbers of data rows whose
    status cell holds "compound found", "substance" and "not found", and
    the first is the sum of the other three. *)
Theorem summary_counts_add_up compound_names w w' :
  read_excel env = Ret compound_names →
  main env w = (Ret (), w') →
  last (console w') = Some ProcessedFileSaved →
  ∃ ws (total found substances missing : nat),
    let n := length compound_names in
    output_file w' = Some ws
    ∧ value (ws_get ws (n + 3, col_B)) = CInt (Z.of_nat total)
    ∧ value (ws_get ws (n + 4, col_B)) = CInt (Z.of_nat found)
    ∧ value (ws_get ws (n + 5, col_B)) = CInt (Z.of_nat substances)
    ∧ value (ws_get ws (n + 6, col_B)) = CInt (Z.of_nat missing)
    ∧ total = n
    ∧ found = rows_with_status ws n (lit "compound found")
    ∧ substances = rows_with_status ws n (lit "substance")
    ∧ missing = rows_with_status ws n (lit "not found")
    ∧ total = found + substances + missing.
Proof.
  intros Hread Hmain Hlast.
  destruct (main_saved _ _ _ Hread Hmain Hlast)
    as (results & ws & Hnames & Hrows & Hws & Hout).
  pose proof (sheet_max_row _ _ Hws) as Hmax.
  assert (Hlen : length compound_names = length results)
    by (by rewrite <- Hnames, length_map).
  set (styled_ws := styling_pass ws) in *.
  set (final := write_summary styled_ws) in *.
  assert (Hmax' : max_row styled_ws = length compound_names + 1)
    by (unfold styled_ws; rewrite max_row_styling_pass; lia).
  assert (Hcount : ∀ label,
    count_status styled_ws label
    = rows_with_status final (length compound_names) label).
  { intros label. rewrite count_status_rows, Hmax'.
    replace (length compound_names + 1 - 1) with (length compound_names)
      by lia.
    apply rows_with_status_ext. intros row Hrow.
    unfold final. by rewrite ws_get_write_summary by lia. }
  destruct (write_summary_counts styled_ws) as (Ht & Hf & Hs & Hm).
  fold final in Ht, Hf, Hs, Hm. rewrite Hmax' in Ht, Hf, Hs, Hm.
  exists final, (length compound_names),
    (rows_with_status final (length compound_names) (lit "compound found")),
    (rows_with_status final (length compound_names) (lit "substance")),
    (rows_with_status final (length compound_names) (lit "not found")).
  cbv zeta. split_and!; try done.
  - replace (length compound_names + 3)
      with (length compound_names + 1 + 2) by lia.
    rewrite Ht. f_equal. lia.
  - replace (length compound_names + 4)
      with (length compound_names + 1 + 2 + 1) by lia.
    by rewrite Hf, Hcount.
  - replace (length compound_names + 5)
      with (length compound_names + 1 + 2 + 2) by lia.
    by rewrite Hs, Hcount.
  - replace (length compound_names + 6)
      with (length compound_names + 1 + 2 + 3) by lia.
    by rewrite Hm, Hcount.
  - apply rows_with_status_partition. intros row Hrow.
    destruct (lookup_lt_is_Some_2 results (row - 2)) as [r Hr]; [lia|].
    destruct (final_data_row _ _ _ _ Hws Hrows Hr) as [_ HD].
    replace (row - 2 + 2) with row in HD by lia.
    exists (r_status r). split; [|done].
    rewrite Forall_forall in Hrows.
    by destruct (Hrows r (list_elem_of_lookup_2 _ _ _ Hr)).
Qed.

Lemma to_excel_world results w r w' :
  to_excel env results w = (r, w') →
  requests w' = requests w ∧ console w' = console w.
Proof.
  rewrite to_excel_eq. destruct (to_excel_io env); by intros [= _ <-].
Qed.

Lemma apply_formatting_world w r w' :
  apply_formatting env w = (r, w') →
  requests w' = requests w ∧ console w' = console w.
Proof.
  rewrite apply_formatting_eq.
  destruct (load_workbook_io env); [|by intros [= _ <-]].
  destruct (output_file w); [|by intros [= _ <-]].
  destruct (save_io env); by intros [= _ <-].
Qed.

(** C9: once the rows are resolved and the directory is there, an
    exception raised by either persist step (writing the table with
    [to_excel], or re-opening, styling and saving it in
    [apply_formatting]) is caught in [main]: the run prints the error as
    its last line, prints no success message, makes no further request,
    and [main] returns normally. *)
Theorem persist_failure_is_reported compound_names results w w1 e :
  read_excel env = Ret compound_names →
  resolve_rows env compound_names [] w = (Ret results, w1) →
  makedirs env = Ret () →
  (∃ w2, to_excel env results w1 = (Raise e, w2))
  ∨ (∃ w2 w3, to_excel env results w1 = (Ret (), w2)
              ∧ apply_formatting env w2 = (Raise e, w3)) →
  ∃ w',
    main env w = (Ret (), w')
    ∧ console w' = console w1 ++ [ErrorSaving e]
    ∧ requests w' = requests w1.
Proof.
  intros Hread Hrows Hdir Hfail.
  rewrite (main_eq _ _ Hread), Hrows, Hdir.
  destruct Hfail as [(w2 & Hwrite)|(w2 & w3 & Hwrite & Hsave)].
  - rewrite Hwrite. apply to_excel_world in Hwrite as [Hreq Hcon].
    eexists. split; [done|]. cbn [print console requests].
    by rewrite Hreq, Hcon.
  - rewrite Hwrite, Hsave.
    apply to_excel_world in Hwrite as [Hreq Hcon].
    apply apply_formatting_world in Hsave as [Hreq' Hcon'].
    eexists. split; [done|]. cbn [print console requests]. split; congruence.
Qed.

(** [os.makedirs] is outside both [try] statements: when it raises,
    [main] raises. *)
Lemma makedirs_failure_propagates compound_names w e :
  read_excel env = Ret compound_names →
  makedirs env = Raise e →
  ∃ w', main env w = (Raise e, w').
Proof.
  intros Hread Hdir. rewrite (main_eq _ _ Hread), Hdir.
  destruct (resolve_rows_returns env compound_names [] w)
    as (results & w1 & -> & _). by eexists.
Qed.

End Run.

(** ** The sample runs *)

Lemma output_has_one_row_per_name_witness :
  (read_excel float_names = Ret [CFloat seven; CStr (lit "aspirin")]
   ∧ main float_names fresh = (Ret (), (main float_names fresh).2))
  ∧ value (ws_get (output_sheet (main float_names fresh)) (2, col_A))
    = CInt 7
  ∧ value (ws_get (output_sheet (main float_names fresh)) (3, col_A))
    = CStr (lit "aspirin")
  ∧ ws_get (output_sheet (main float_names fresh)) (4, col_A) = blank.
Proof.
  assert (H1 : read_excel float_names
               = Ret [CFloat seven; CStr (lit "aspirin")])
    by reflexivity.
  assert (H2 : main float_names fresh
               = (Ret (), (main float_names fresh).2))
    by (vm_compute; reflexivity).
  split; [exact (conj H1 H2)|].
  destruct (output_has_one_row_per_name float_names _ _ _ _ H1 H2)
    as [Hsame|(ws & Hout & Hrows & Hblank)].
  - vm_compute in Hsame. discriminate Hsame.
  - unfold output_sheet. rewrite Hout.
    exact (conj (proj1 (Hrows 0 (CFloat seven) eq_refl))
             (conj (proj1 (Hrows 1 (CStr (lit "aspirin")) eq_refl))
                (Hblank col_A))).
Defined.

(** The float 7.0 is looked up as "7.0"; the workbook hands it back as
    the int 7, and the label and the link of its row are made from that. *)
Example whole_float_is_relabelled :
  let run := main float_names fresh in
  let ws := output_sheet run in
  requests run.2
  = [lit "https://pubchem.ncbi.nlm.nih.gov/rest/pug/compound/name/7.0/property/CanonicalSMILES/JSON";
     lit "https://pubchem.ncbi.nlm.nih.gov/rest/pug/substance/name/7.0/property/CanonicalSMILES/JSON";
     lit "https://pubchem.ncbi.nlm.nih.gov/rest/pug/compound/name/aspirin/property/CanonicalSMILES/JSON";
     lit "https://pubchem.ncbi.nlm.nih.gov/rest/pug/substance/name/aspirin/property/CanonicalSMILES/JSON"]
  ∧ value (ws_get ws (2, col_A)) = CInt 7
  ∧ ws_get ws (2, col_E)
    = XCell (CStr (lit "7")) None
        (Some (Hyperlink (2, col_E)
                 (lit "https://pubchem.ncbi.nlm.nih.gov/#query=7"))).
Proof. vm_compute. repeat split. Qed.

Lemma summary_counts_add_up_witness :
  (read_excel substance_only = Ret [CStr (lit "aspirin")]
   ∧ main substance_only fresh = (Ret (), (main substance_only fresh).2)
   ∧ last (console (main substance_only fresh).2) = Some ProcessedFileSaved)
  ∧ ∃ ws (total found substances missing : nat),
      output_file (main substance_only fresh).2 = Some ws
      ∧ value (ws_get ws (4, col_B)) = CInt (Z.of_nat total)
      ∧ value (ws_get ws (5, col_B)) = CInt (Z.of_nat found)
      ∧ value (ws_get ws (6, col_B)) = CInt (Z.of_nat substances)
      ∧ value (ws_get ws (7, col_B)) = CInt (Z.of_nat missing)
      ∧ total = found + substances + missing.
Proof.
  assert (H1 : read_excel substance_only = Ret [CStr (lit "aspirin")])
    by reflexivity.
  assert (H2 : main substance_only fresh
               = (Ret (), (main substance_only fresh).2))
    by (vm_compute; reflexivity).
  assert (H3 : last (console (main substance_only fresh).2)
               = Some ProcessedFileSaved)
    by (vm_compute; reflexivity).
  split; [exact (conj H1 (conj H2 H3))|].
  destruct (summary_counts_add_up substance_only _ _ _ H1 H2 H3)
    as (ws & total & found & substances & missing & Hout & Ht & Hf & Hs & Hm
        & _ & _ & _ & _ & Hsum).
  exists ws, total, found, substances, missing.
  exact (conj Hout (conj Ht (conj Hf (conj Hs (conj Hm Hsum))))).
Defined.

Lemma persist_failure_is_reported_witness :
  (read_excel save_fails = Ret [CStr (lit "aspirin")]
   ∧ makedirs save_fails = Ret ()
   ∧ save_io save_fails = Raise OSError)
  ∧ ∃ w', main save_fails fresh = (Ret (), w')
          ∧ last (console w') = Some (ErrorSaving OSError).
Proof.
  set (results := [ReportRow (CStr (lit "aspirin")) (JInt 2244)
                     (JStr (lit "CC(=O)OC1=CC=CC=C1C(=O)O"))
                     (lit "substance") []]).
  set (w1 := World [lookup_url false (lit "aspirin");
                    lookup_url true (lit "aspirin")] [] None).
  assert (H1 : read_excel save_fails = Ret [CStr (lit "aspirin")])
    by reflexivity.
  assert (H2 : resolve_rows save_fails [CStr (lit "aspirin")] [] fresh
               = (Ret results, w1))
    by (vm_compute; reflexivity).
  assert (H3 : makedirs save_fails = Ret ()) by reflexivity.
  assert (H4 : (∃ w2, to_excel save_fails results w1 = (Raise OSError, w2))
               ∨ (∃ w2 w3, to_excel save_fails results w1 = (Ret (), w2)
                           ∧ apply_formatting save_fails w2
                             = (Raise OSError, w3))).
  { right. exists (to_excel save_fails results w1).2,
      (to_excel save_fails results w1).2.
    split; vm_compute; reflexivity. }
  split; [exact (conj H1 (conj H3 eq_refl))|].
  destruct (persist_failure_is_reported save_fails _ _ _ _ _ H1 H2 H3 H4)
    as (w' & Hmain & Hcon & _).
  exists w'. split; [exact Hmain|]. rewrite Hcon. apply last_snoc.
Defined.

Lemma styling_pass_frame_witness :
  fill (ws_get (styling_pass (output_sheet (main zero_names fresh)))
          (2, col_A)) = None
  ∧ value (ws_get (styling_pass (output_sheet (main zero_names fresh)))
             (2, col_A)) = CInt 0.
Proof.
  destruct (styling_pass_frame (output_sheet (main zero_names fresh))
              2 col_A) as (_ & Hname & _).
  rewrite Hname by (apply elem_of_cons; left; reflexivity).
  split; vm_compute; reflexivity.
Defined.

(** C8: a row whose status is "not found" and whose name cell is not
    empty should receive the link and its label. At a name cell that holds
    the number 0 it does not: the run looks the name up as "0", finds
    nothing and writes the row with status "not found", and the styling
    loop then takes the 0 for an empty name and leaves column E blank. The
    row below, whose name is the number 7, gets the link and the label. *)
Theorem zero_name_gets_no_hyperlink :
  let run := main zero_names fresh in
  let ws := output_sheet run in
  run.1 = Ret ()
  ∧ requests run.2
    = [lookup_url false (lit "0"); lookup_url true (lit "0");
       lookup_url false (lit "7"); lookup_url true (lit "7")]
  ∧ value (ws_get ws (2, col_A)) = CInt 0
  ∧ value (ws_get ws (2, col_D)) = CStr (lit "not found")
  ∧ ws_get ws (2, col_E) = blank
  ∧ value (ws_get ws (3, col_A)) = CInt 7
  ∧ value (ws_get ws (3, col_D)) = CStr (lit "not found")
  ∧ ws_get ws (3, col_E)
    = XCell (CStr (lit "7")) None
        (Some (Hyperlink (3, col_E)
                 (lit "https://pubchem.ncbi.nlm.nih.gov/#query=7"))).
Proof. vm_compute. repeat split. Qed.

(** ** More on the two encoders *)

Section Encoders.

#[local] Open Scope N_scope.

Lemma hyperlink_subst_other c : c ∉ keys → hyperlink_subst c = [c].
Proof.
  unfold keys. rewrite !not_elem_of_cons. intros (?&?&?&?&?&?&_).
  unfold hyperlink_subst, greek_subst.
  by repeat (rewrite subst_chr_ne by assumption; cbn [flat_map app]).
Qed.

Lemma hyperlink_subst_no_key c : Forall (λ d, d ∉ keys) (hyperlink_subst c).
Proof.
  destruct (decide (c ∈ keys)) as [Hc|Hc].
  - unfold keys in Hc. rewrite !elem_of_cons, elem_of_nil in Hc.
    destruct Hc as [->|[->|[->|[->|[->|[->|[]]]]]]];
      by apply (bool_decide_unpack _); vm_compute.
  - rewrite hyperlink_subst_other by done. by repeat constructor.
Qed.

Lemma hyperlink_subst_greek_subst c :
  flat_map hyperlink_subst (greek_subst c) = hyperlink_subst c.
Proof.
  destruct (decide (c ∈ greek)) as [Hc|Hc].
  - unfold greek in Hc. rewrite !elem_of_cons, elem_of_nil in Hc.
    by destruct Hc as [->|[->|[->|[->|[]]]]]; vm_compute.
  - rewrite greek_subst_other by done. cbn. by rewrite app_nil_r.
Qed.

Lemma hyperlink_flat_map v :
  isna v = false →
  replace_special_characters_for_hyperlink v
  = flat_map hyperlink_subst (py_str v).
Proof.
  intros H. unfold replace_special_characters_for_hyperlink. rewrite H.
  apply apply_hyperlink_replacements.
Qed.

Lemma hyperlink_of_normalized name :
  replace_special_characters_for_hyperlink
    (CStr (replace_special_characters name))
  = replace_special_characters_for_hyperlink name.
Proof.
  rewrite (hyperlink_flat_map (CStr _)) by done. cbn [py_str].
  unfold replace_special_characters,
    replace_special_characters_for_hyperlink.
  destruct (isna name); [done|].
  rewrite apply_greek_replacements, apply_hyperlink_replacements,
    flat_map_flat_map.
  apply flat_map_ext, hyperlink_subst_greek_subst.
Qed.

(** X1: both encoders are idempotent on every cell value, and encoding a
    normalized name for a link gives what encoding the raw name gives. *)
Theorem encoders_compose name :
  replace_special_characters (CStr (replace_special_characters name))
  = replace_special_characters name
  ∧ replace_special_characters_for_hyperlink
      (CStr (replace_special_characters_for_hyperlink name))
    = replace_special_characters_for_hyperlink name
  ∧ replace_special_characters_for_hyperlink
      (CStr (replace_special_characters name))
    = replace_special_characters_for_hyperlink name.
Proof.
  split_and!.
  - apply normalize_greek_free, normalized_greek_free.
  - rewrite (hyperlink_flat_map (CStr _)) by done. cbn [py_str].
    apply flat_map_singleton_id.
    unfold replace_special_characters_for_hyperlink.
    destruct (isna name); [constructor|].
    rewrite apply_hyperlink_replacements.
    apply Forall_flat_map, Forall_forall. intros c _.
    eapply Forall_impl; [apply hyperlink_subst_no_key|].
    intros d Hd. by apply hyperlink_subst_other.
  - apply hyperlink_of_normalized.
Qed.

(** X2: whatever the cell holds, neither encoder lets one of the letters
    α, β, γ, δ through. *)
Theorem no_greek_letter_survives name :
  Forall (λ c, c ∉ greek) (replace_special_characters name)
  ∧ Forall (λ c, c ∉ greek) (replace_special_characters_for_hyperlink name).
Proof.
  split; [apply normalized_greek_free|].
  unfold replace_special_characters_for_hyperlink.
  destruct (isna name); [constructor|].
  rewrite apply_hyperlink_replacements.
  apply Forall_flat_map, Forall_forall. intros c _.
  eapply Forall_impl; [apply hyperlink_subst_no_key|].
  intros d Hd Hg. apply Hd. unfold keys, greek in *.
  rewrite !elem_of_cons in *. tauto.
Qed.

End Encoders.

(** ** More on the lookup *)

Section Lookups.

Context (env : environment).

Lemma read_response_http_error is_substance r status :
  read_response is_substance r = Raise (HTTPError status) →
  status_code r = status ∧ http_failure status.
Proof.
  unfold read_response, raise_for_status.
  destruct (_ && _)%Z eqn:E.
  { cbn. intros [= <-]. unfold http_failure. lia. }
  cbn. unfold response_json. destruct (body r) as [data|]; [|done]. cbn.
  intros H. exfalso.
  destruct (first_property data) as [p|e] eqn:Hp; cbn in H.
  - destruct (getitem_str p (lit "CID")) as [cid|e] eqn:Hcid; cbn in H.
    + destruct (getitem_str p (lit "CanonicalSMILES")) as [?|e] eqn:Hsm;
        cbn in H; [done|]. injection H as ->.
      unfold getitem_str in Hsm.
      destruct p; try done. by destruct (dict_get _ _).
    + injection H as ->. unfold getitem_str in Hcid.
      destruct p; try done. by destruct (dict_get _ _).
  - injection H as ->.
    unfold first_property, getitem_str, getitem_0 in Hp.
    repeat (case_match; simplify_eq/=; try done).
Qed.

(** Everything one call does: the value it returns, the requests it
    makes, the lines it prints. *)
Lemma lookup_trace compound_name is_substance w :
  let name := replace_special_characters compound_name in
  ∃ res urls msgs,
    get_pubchem_info env compound_name is_substance w
    = (Ret res, World (requests w ++ urls) (console w ++ msgs)
                  (output_file w))
    ∧ (urls = [lookup_url is_substance name]
       ∨ (is_substance = false
          ∧ urls = [lookup_url false name; lookup_url true name]
          ∧ lookup_missing (next_reply env w (lookup_url false name))))
    ∧ ((res = not_found ∧ length msgs = 1)
       ∨ (msgs = []
          ∧ (res.2 = lit "compound found" ∨ res.2 = lit "substance"))).
Proof.
  assert (Hsub : ∀ c w0,
    ∃ res msgs,
      get_pubchem_info env c true w0
      = (Ret res,
         World (requests w0
                ++ [lookup_url true (replace_special_characters c)])
           (console w0 ++ msgs) (output_file w0))
      ∧ ((res = not_found ∧ length msgs = 1)
         ∨ (msgs = []
            ∧ (res.2 = lit "compound found" ∨ res.2 = lit "substance")))).
  { intros c w0. rewrite get_pubchem_info_eq, try_lookup_eq.
    destruct (next_reply _ _ _) as [|r].
    { eexists _, [_]. split; [reflexivity|]. by left. }
    destruct (read_response true r) as [res|e] eqn:E.
    { apply read_response_inv in E as (cid & smiles & _ & ->).
      eexists _, []. rewrite app_nil_r. split; [reflexivity|].
      right. split; [done|]. by right. }
    destruct e as [status| | | | | | | |];
      try (eexists _, [_]; split; [reflexivity|]; by left).
    destruct (status =? 404)%Z;
      (eexists _, [_]; split; [reflexivity|]; by left). }
  intros name. destruct is_substance.
  { destruct (Hsub compound_name w) as (res & msgs & E & Hres).
    exists res, [lookup_url true name], msgs. split; [done|].
    split; [by left|done]. }
  rewrite get_pubchem_info_eq, try_lookup_eq. fold name.
  destruct (next_reply _ _ _) as [|r] eqn:Hreply.
  { eexists _, [_], [_]. split; [reflexivity|]. split; by left. }
  destruct (read_response false r) as [res|e] eqn:E.
  { apply read_response_inv in E as (cid & smiles & _ & ->).
    eexists _, [_], []. rewrite app_nil_r. split; [reflexivity|].
    split; [by left|]. right. split; [done|]. by left. }
  destruct e as [status| | | | | | | |];
    try (eexists _, [_], [_]; split; [reflexivity|]; split; by left).
  destruct (status =? 404)%Z eqn:E404;
    [|eexists _, [_], [_]; split; [reflexivity|]; split; by left].
  apply Z.eqb_eq in E404 as ->.
  apply read_response_http_error in E as [H404 _].
  destruct (Hsub (CStr name) (World (requests w ++ [lookup_url false name])
                                (console w) (output_file w)))
    as (res & msgs & E' & Hres).
  pose proof (normalize_idempotent compound_name) as Hid. fold name in Hid.
  rewrite Hid in E'. rewrite E'.
  cbn [requests console output_file]. rewrite <- app_assoc.
  exists res, [lookup_url false name; lookup_url true name], msgs.
  split; [done|]. split; [|done]. right. split_and!; [done..|].
  by constructor.
Qed.

(** X3: a compound lookup that succeeds makes that one request, prints
    nothing and returns the identifier and the structure of the reply
    with status "compound found". *)
Theorem compound_found_at_once compound_name w cid smiles :
  let name := replace_special_characters compound_name in
  lookup_succeeds
    (remote env (length (requests w)) (lookup_url false name)) cid smiles →
  get_pubchem_info env compound_name false w
  = (Ret (cid, smiles, lit "compound found"),
     World (requests w ++ [lookup_url false name]) (console w)
       (output_file w)).
Proof.
  intros name Hs. rewrite get_pubchem_info_eq, try_lookup_eq. fold name.
  unfold next_reply. inversion Hs as [r data ? ? Hst Hbody Ht Hr]; subst.
  rewrite <- Hr in Hs. by rewrite (read_response_succeeds false _ _ _ Hs).
Qed.

(** X4: a lookup never makes more than two requests. The first goes to
    the endpoint asked for; a second one is made only by a compound
    lookup whose first reply was a 404, and goes to the substance
    endpoint. The output file is not touched. *)
Theorem lookup_makes_at_most_two_requests compound_name is_substance w :
  let name := replace_special_characters compound_name in
  ∃ res w',
    get_pubchem_info env compound_name is_substance w = (Ret res, w')
    ∧ output_file w' = output_file w
    ∧ (requests w' = requests w ++ [lookup_url is_substance name]
       ∨ (is_substance = false
          ∧ lookup_missing
              (remote env (length (requests w)) (lookup_url false name))
          ∧ requests w'
            = requests w
              ++ [lookup_url false name; lookup_url true name])).
Proof.
  intros name.
  destruct (lookup_trace compound_name is_substance w)
    as (res & urls & msgs & E & Hurls & _).
  eexists _, _. split; [exact E|]. split; [done|]. cbn [requests].
  destruct Hurls as [->|(-> & -> & Hm)]; [by left|right]. by split_and!.
Qed.

(** X5: a lookup prints exactly one line when it ends in "not found",
    and then returns (None, None, "not found"); it prints nothing when
    it finds the name. *)
Theorem lookup_prints_one_line_per_failure compound_name is_substance w :
  ∃ res msgs w',
    get_pubchem_info env compound_name is_substance w = (Ret res, w')
    ∧ console w' = console w ++ msgs
    ∧ ((res = not_found ∧ length msgs = 1)
       ∨ (res.2 ≠ lit "not found" ∧ msgs = [])).
Proof.
  destruct (lookup_trace compound_name is_substance w)
    as (res & urls & msgs & E & _ & Hres).
  eexists _, msgs, _. split; [exact E|]. split; [done|].
  destruct Hres as [?|[-> [Hl|Hl]]]; [by left|right..];
    (split; [|done]); rewrite Hl; by vm_compute.
Qed.

(** X6: a name and its normalized form are looked up alike: the same
    requests, the same lines, the same result. *)
Theorem lookup_of_normalized_name compound_name is_substance w :
  get_pubchem_info env (CStr (replace_special_characters compound_name))
    is_substance w
  = get_pubchem_info env compound_name is_substance w.
Proof.
  rewrite (get_pubchem_info_eq env (CStr _)),
    (get_pubchem_info_eq env compound_name).
  by rewrite !normalize_idempotent.
Qed.

End Lookups.

Lemma compound_found_at_once_witness :
  lookup_succeeds (remote knows_all 0 (lookup_url false (lit "aspirin")))
    (JInt 2244) (JStr (lit "CC(=O)OC1=CC=CC=C1C(=O)O"))
  ∧ get_pubchem_info knows_all (CStr (lit "aspirin")) false fresh
    = (Ret (JInt 2244, JStr (lit "CC(=O)OC1=CC=CC=C1C(=O)O"),
            lit "compound found"),
       World [lookup_url false (lit "aspirin")] [] None).
Proof.
  assert (H : lookup_succeeds
                (remote knows_all 0 (lookup_url false (lit "aspirin")))
                (JInt 2244) (JStr (lit "CC(=O)OC1=CC=CC=C1C(=O)O"))).
  { eapply Succeeds; [unfold http_failure; cbn; lia|reflexivity|].
    eexists _, _, _. repeat split. }
  split; [exact H|].
  exact (compound_found_at_once knows_all (CStr (lit "aspirin")) fresh _ _ H).
Defined.

(** ** More on the styling and the summary *)

Section Styling.

Implicit Types (ws : worksheet) (k : nat * nat).

(** X7: the loop gives the status cell of every data row the fill of its
    status, green for "compound found", amber for "substance", red for
    "not found", and keeps the value and the hyperlink of that cell. *)
Theorem status_cells_are_coloured ws r :
  2 ≤ r ≤ max_row ws →
  let before := ws_get ws (r, col_D) in
  let after := ws_get (styling_pass ws) (r, col_D) in
  value after = value before
  ∧ hyperlink after = hyperlink before
  ∧ (value before = CStr (lit "compound found") → fill after = Some green)
  ∧ (value before = CStr (lit "substance") → fill after = Some amber)
  ∧ (value before = CStr (lit "not found") → fill after = Some red).
Proof.
  intros Hr. cbv zeta. rewrite ws_get_styling_pass, decide_True by done.
  unfold styled. split_and!.
  - destruct (fill_colors_get _); [|done]. by rewrite decide_True.
  - destruct (fill_colors_get _); [|done]. by rewrite decide_True.
  - by intros ->.
  - by intros ->.
  - by intros ->.
Qed.

(** X8: in a data row whose status is "not found" and whose name cell is
    truthy, the loop leaves in column E the encoding of the name cell as
    value and a link to the query page for it, and keeps the fill of the
    cell. In every other data row column E is left as it was. *)
Theorem hyperlink_column_after_styling ws r :
  2 ≤ r ≤ max_row ws →
  let status := value (ws_get ws (r, col_D)) in
  let compound_name := value (ws_get ws (r, col_A)) in
  let label := replace_special_characters_for_hyperlink compound_name in
  (status = CStr (lit "not found") → truthy compound_name = true →
     ws_get (styling_pass ws) (r, col_E)
     = XCell (CStr label) (fill (ws_get ws (r, col_E)))
         (Some (Hyperlink (r, col_E)
                  (lit "https://pubchem.ncbi.nlm.nih.gov/#query=" ++ label))))
  ∧ (status ≠ CStr (lit "not found") ∨ truthy compound_name = false →
     ws_get (styling_pass ws) (r, col_E) = ws_get ws (r, col_E)).
Proof.
  intros Hr. cbv zeta. rewrite ws_get_styling_pass, decide_True by done.
  unfold styled. split.
  - by intros -> ->.
  - intros Hno. destruct (fill_colors_get _); [|done].
    rewrite decide_False, decide_True by done.
    destruct (eq_str _ _) eqn:Hst; [|done]. apply eq_str_true in Hst.
    destruct Hno as [Hno| ->]; [done|done].
Qed.

Lemma styled_styled ws r col :
  2 ≤ r ≤ max_row ws →
  styled (styling_pass ws) r col = styled ws r col.
Proof.
  intros Hr.
  pose proof (value_styling_pass ws r col_D) as HD.
  pose proof (value_styling_pass ws r col_A) as HA.
  assert (Hold : ws_get (styling_pass ws) (r, col) = styled ws r col)
    by (by rewrite ws_get_styling_pass, decide_True).
  unfold styled at 1. rewrite HD, HA, Hold by done.
  unfold styled. destruct (fill_colors_get _); [|done].
  destruct (decide (col = col_D)); [done|].
  destruct (decide (col = col_E)); [|done].
  by destruct (_ && _).
Qed.

(** X9: running the loop a second time changes no cell and no row count:
    the styling is idempotent. *)
Theorem styling_pass_idempotent ws k :
  ws_get (styling_pass (styling_pass ws)) k = ws_get (styling_pass ws) k
  ∧ max_row (styling_pass (styling_pass ws)) = max_row ws.
Proof.
  split; [|by rewrite !max_row_styling_pass].
  destruct k as [r col].
  rewrite (ws_get_styling_pass (styling_pass ws)), max_row_styling_pass.
  case_decide as Hr; [|done].
  rewrite styled_styled by done.
  by rewrite ws_get_styling_pass, decide_True.
Qed.

Ltac skip_key :=
  rewrite ws_get_set_value_ne
    by (unfold col_A, col_B; intros [=]; lia).

Lemma max_row_set_value ws k v :
  1 ≤ k.1 → max_row (set_value k v ws) = max_row ws `max` k.1.
Proof.
  intros H1. unfold set_value.
  destruct (decide (k.1 ≤ max_row ws)).
  - rewrite max_row_insert_within by lia. lia.
  - rewrite max_row_insert_beyond by lia. lia.
Qed.

(** X10: the summary takes the eight cells of columns A and B in the four
    rows that start two rows below the last row of the sheet: the sheet
    grows by five rows, the row between stays as it was, and so does
    every other cell. The labels are in column A, the total in column B
    is the number of rows below the header. *)
Theorem summary_layout ws :
  let m := max_row ws in
  let final := write_summary ws in
  max_row final = m + 5
  ∧ (∀ r col, r < m + 2 ∨ m + 5 < r ∨ col = 0 ∨ 2 < col →
       ws_get final (r, col) = ws_get ws (r, col))
  ∧ value (ws_get final (m + 2, col_A))
    = CStr (lit "Total number of compounds:")
  ∧ value (ws_get final (m + 3, col_A))
    = CStr (lit "Total number of compounds found:")
  ∧ value (ws_get final (m + 4, col_A))
    = CStr (lit "Total number of substances found:")
  ∧ value (ws_get final (m + 5, col_A))
    = CStr (lit "Total number of compounds not found:")
  ∧ value (ws_get final (m + 2, col_B)) = CInt (Z.of_nat m - 1).
Proof.
  cbv zeta. unfold write_summary. cbv zeta. split_and!.
  - rewrite !max_row_set_value by (cbn [fst]; lia). cbn [fst]. lia.
  - intros r col Hrc. by do 8 skip_key.
  - do 7 skip_key. apply value_set_value.
  - replace (max_row ws + 3) with (max_row ws + 2 + 1) by lia.
    do 5 skip_key. apply value_set_value.
  - replace (max_row ws + 4) with (max_row ws + 2 + 2) by lia.
    do 3 skip_key. apply value_set_value.
  - replace (max_row ws + 5) with (max_row ws + 2 + 3) by lia.
    do 1 skip_key. apply value_set_value.
  - do 6 skip_key. apply value_set_value.
Qed.

Lemma filter_partition4 {A} (f g h o : A → bool) (l : list A) :
  Forall (λ x, (f x = true ∧ g x = false ∧ h x = false ∧ o x = false)
               ∨ (f x = false ∧ g x = true ∧ h x = false ∧ o x = false)
               ∨ (f x = false ∧ g x = false ∧ h x = true ∧ o x = false)
               ∨ (f x = false ∧ g x = false ∧ h x = false ∧ o x = true)) l →
  length l = length (List.filter f l) + length (List.filter g l)
             + length (List.filter h l) + length (List.filter o l).
Proof.
  induction 1 as [|x l Hx _ IH]; [done|]. cbn [List.filter].
  destruct Hx as [(-> & -> & -> & ->)|[(-> & -> & -> & ->)
    |[(-> & -> & -> & ->)|(-> & -> & -> & ->)]]]; cbn [length]; lia.
Qed.

Lemma status_cases v :
  let o := match fill_colors_get v with Some _ => false | None => true end in
  (eq_str v (lit "compound found") = true ∧ eq_str v (lit "substance") = false
   ∧ eq_str v (lit "not found") = false ∧ o = false)
  ∨ (eq_str v (lit "compound found") = false
     ∧ eq_str v (lit "substance") = true
     ∧ eq_str v (lit "not found") = false ∧ o = false)
  ∨ (eq_str v (lit "compound found") = false
     ∧ eq_str v (lit "substance") = false
     ∧ eq_str v (lit "not found") = true ∧ o = false)
  ∨ (eq_str v (lit "compound found") = false
     ∧ eq_str v (lit "substance") = false
     ∧ eq_str v (lit "not found") = false ∧ o = true).
Proof.
  cbv zeta. destruct (fill_colors_get v) as [f|] eqn:Hf.
  - apply fill_colors_get_Some in Hf as (s & -> & Hs).
    destruct (label_cases s Hs) as [(?&?&?)|[(?&?&?)|(?&?&?)]]; tauto.
  - do 3 right.
    destruct v as [| | | | |s]; try done. cbn [eq_str].
    cbn [fill_colors_get fill_colors dict_get] in Hf.
    repeat case_bool_decide; try done; subst; by vm_compute in Hf.
Qed.

Lemma count_status_styling_pass ws label :
  count_status (styling_pass ws) label = count_status ws label.
Proof.
  rewrite !count_status_rows, max_row_styling_pass.
  apply rows_with_status_ext. intros row _. by apply value_styling_pass.
Qed.

(** X11: on any workbook, the total [apply_formatting] writes counts every
    row below the header, the rows whose status is none of the three
    labels included: it is the sum of the three counts only when there is
    no such row. *)
Theorem total_counts_every_row ws :
  1 ≤ max_row ws →
  let final := write_summary (styling_pass ws) in
  let m := max_row ws in
  ∃ total found substances missing : nat,
    value (ws_get final (m + 2, col_B)) = CInt (Z.of_nat total)
    ∧ value (ws_get final (m + 3, col_B)) = CInt (Z.of_nat found)
    ∧ value (ws_get final (m + 4, col_B)) = CInt (Z.of_nat substances)
    ∧ value (ws_get final (m + 5, col_B)) = CInt (Z.of_nat missing)
    ∧ total = m - 1
    ∧ found = count_status ws (lit "compound found")
    ∧ substances = count_status ws (lit "substance")
    ∧ missing = count_status ws (lit "not found")
    ∧ total = found + substances + missing + count_unlabelled ws.
Proof.
  intros Hm. cbv zeta.
  destruct (write_summary_counts (styling_pass ws)) as (Ht & Hf & Hs & Hn).
  rewrite max_row_styling_pass, !count_status_styling_pass in *.
  exists (max_row ws - 1), (count_status ws (lit "compound found")),
    (count_status ws (lit "substance")), (count_status ws (lit "not found")).
  split_and!; try done.
  - rewrite Ht. f_equal. lia.
  - by replace (max_row ws + 3) with (max_row ws + 2 + 1) by lia.
  - by replace (max_row ws + 4) with (max_row ws + 2 + 2) by lia.
  - by replace (max_row ws + 5) with (max_row ws + 2 + 3) by lia.
  - unfold count_status, count_unlabelled.
    rewrite <- filter_partition4.
    + unfold range. rewrite length_seq. lia.
    + apply List.Forall_forall. intros row _. apply status_cases.
Qed.

End Styling.

Lemma status_cells_are_coloured_witness :
  2 ≤ 3 ≤ max_row sample_sheet
  ∧ fill (ws_get (styling_pass sample_sheet) (3, col_D)) = Some red.
Proof.
  assert (H : 2 ≤ 3 ≤ max_row sample_sheet) by (vm_compute; lia).
  split; [exact H|].
  destruct (status_cells_are_coloured sample_sheet 3 H)
    as (_ & _ & _ & _ & Hred).
  apply Hred. vm_compute. reflexivity.
Defined.

Lemma hyperlink_column_after_styling_witness :
  2 ≤ 3 ≤ max_row sample_sheet
  ∧ value (ws_get (styling_pass sample_sheet) (3, col_E))
    = CStr (lit "1%2c2-di%20beta")
  ∧ ws_get (styling_pass sample_sheet) (2, col_E)
    = ws_get sample_sheet (2, col_E).
Proof.
  assert (H3 : 2 ≤ 3 ≤ max_row sample_sheet) by (vm_compute; lia).
  assert (H2 : 2 ≤ 2 ≤ max_row sample_sheet) by (vm_compute; lia).
  split; [exact H3|]. split.
  - destruct (hyperlink_column_after_styling sample_sheet 3 H3) as [Hyes _].
    rewrite Hyes; vm_compute; reflexivity.
  - destruct (hyperlink_column_after_styling sample_sheet 2 H2) as [_ Hno].
    apply Hno. left. vm_compute. discriminate.
Defined.

Lemma total_counts_every_row_witness :
  1 ≤ max_row sample_sheet
  ∧ count_unlabelled sample_sheet = 1
  ∧ value (ws_get (write_summary (styling_pass sample_sheet)) (6, col_B))
    = CInt 3.
Proof.
  assert (H : 1 ≤ max_row sample_sheet) by (vm_compute; lia).
  split; [exact H|]. split; [vm_compute; reflexivity|].
  destruct (total_counts_every_row sample_sheet H)
    as (total & found & substances & missing & Ht & _ & _ & _ & -> & _).
  change (max_row sample_sheet + 2) with 6 in Ht. exact Ht.
Defined.

(** ** More on the whole run *)

Section Runs.

Context (env : environment).

(** Everything the loop of [main] does. *)
Lemma resolve_rows_trace compound_names results w :
  ∃ rows urls msgs,
    resolve_rows env compound_names results w
    = (Ret (results ++ rows),
       World (requests w ++ urls) (console w ++ msgs) (output_file w))
    ∧ map r_name rows = compound_names
    ∧ Forall row_ok rows
    ∧ length compound_names ≤ length urls ≤ 2 * length compound_names
    ∧ length msgs = length (missing_rows rows).
Proof.
  revert results w.
  induction compound_names as [|compound rest IH]; intros results w.
  { exists [], [], []. rewrite !app_nil_r. destruct w. by split_and!. }
  destruct (lookup_trace env compound false w)
    as ([[cid smiles] status] & urls & msgs & E & Hurls & Hres).
  destruct (IH (results ++ [ReportRow compound cid smiles status []])
              (World (requests w ++ urls) (console w ++ msgs)
                 (output_file w)))
    as (rows & urls' & msgs' & E' & Hnames & Hrows & Hlen & Hmsgs).
  cbn [requests console output_file] in E'.
  exists (ReportRow compound cid smiles status [] :: rows),
    (urls ++ urls'), (msgs ++ msgs').
  split_and!.
  - cbn [resolve_rows]. unfold mbind at 1, M_bind at 1. rewrite E, E'.
    by rewrite <- !app_assoc.
  - cbn. by rewrite Hnames.
  - constructor; [|done]. split; [done|]. cbn [r_status r_cid r_smiles].
    destruct Hres as [[[= -> -> ->] _]|[_ [Hl|Hl]]]; cbn in *; auto.
  - rewrite length_app. cbn [length].
    destruct Hurls as [->|(_ & -> & _)]; cbn [length]; lia.
  - rewrite length_app. cbn [length].
    destruct Hurls as [->|(_ & -> & _)]; cbn [length]; lia.
  - rewrite length_app, Hmsgs. unfold missing_rows. cbn [List.filter r_status].
    destruct Hres as [[[= -> -> ->] Hone]|[-> [Hl|Hl]]].
    + rewrite bool_decide_true by done. cbn [length]. lia.
    + cbn in Hl. rewrite Hl, bool_decide_false by (by vm_compute). done.
    + cbn in Hl. rewrite Hl, bool_decide_false by (by vm_compute). done.
Qed.

(** X12: the loop of [main] prints as many lines as it produces rows
    with status "not found", one for each, and a row that is not found
    has neither identifier nor structure. *)
Theorem one_line_per_missing_row compound_names w :
  ∃ rows msgs w',
    resolve_rows env compound_names [] w = (Ret rows, w')
    ∧ map r_name rows = compound_names
    ∧ console w' = console w ++ msgs
    ∧ length msgs = length (missing_rows rows)
    ∧ Forall (λ r, r_cid r = JNull ∧ r_smiles r = JNull) (missing_rows rows).
Proof.
  destruct (resolve_rows_trace compound_names [] w)
    as (rows & urls & msgs & E & Hnames & Hrows & _ & Hmsgs).
  eexists rows, msgs, _. split; [exact E|]. split_and!; try done.
  unfold missing_rows. apply List.Forall_forall.
  intros r [Hin Hst]%filter_In. apply bool_decide_eq_true in Hst.
  rewrite List.Forall_forall in Hrows.
  destruct (Hrows r Hin) as [_ [(_ & ? & ?)|[H|H]]]; [done|..];
    rewrite H in Hst; by vm_compute in Hst.
Qed.

(** X13: a run makes at least one and at most two requests for each
    name it has read, whatever happens afterwards. *)
Theorem run_makes_one_or_two_requests_per_name compound_names w r w' :
  read_excel env = Ret compound_names →
  main env w = (r, w') →
  length (requests w) + length compound_names ≤ length (requests w')
  ∧ length (requests w') ≤ length (requests w) + 2 * length compound_names.
Proof.
  intros Hread Hmain. rewrite (main_eq _ _ _ Hread) in Hmain.
  destruct (resolve_rows_trace compound_names [] w)
    as (rows & urls & msgs & E & _ & _ & Hlen & _).
  rewrite E in Hmain. cbn [app] in Hmain.
  assert (Hreq : requests w' = requests w ++ urls).
  { destruct (makedirs env); [|by injection Hmain as _ <-].
    destruct (to_excel env rows _) as [[u|e] w2] eqn:Hw.
    - apply to_excel_world in Hw as [Hw _].
      destruct (apply_formatting env w2) as [[u'|e] w3] eqn:Hf;
        apply apply_formatting_world in Hf as [Hf _];
        injection Hmain as _ <-; cbn [print requests] in *; congruence.
    - apply to_excel_world in Hw as [Hw _].
      injection Hmain as _ <-. cbn [print requests] in *. congruence. }
  rewrite Hreq, length_app. lia.
Qed.

(** X14: [main] raises only when [os.makedirs] does, and then leaves the
    output file alone. When reading the input fails it prints that error
    and does nothing else. In every other run it returns normally and
    its last line is the success message or the report of a failed
    save. *)
Theorem main_outcomes w r w' :
  main env w = (r, w') →
  (∃ e, read_excel env = Raise e ∧ r = Ret ()
        ∧ w' = World (requests w) (console w ++ [ErrorReading e])
                 (output_file w))
  ∨ (∃ e, makedirs env = Raise e ∧ r = Raise e
          ∧ output_file w' = output_file w)
  ∨ (r = Ret ()
     ∧ (last (console w') = Some ProcessedFileSaved
        ∨ ∃ e, last (console w') = Some (ErrorSaving e))).
Proof.
  intros Hmain. destruct (read_excel env) as [compound_names|e] eqn:Hread.
  2:{ left. exists e. unfold main in Hmain. rewrite Hread in Hmain.
      by injection Hmain as <- <-. }
  right. rewrite (main_eq _ _ _ Hread) in Hmain.
  destruct (resolve_rows_trace compound_names [] w)
    as (rows & urls & msgs & E & _).
  rewrite E in Hmain. cbn [app] in Hmain.
  destruct (makedirs env) as [u|e];
    [right|left; exists e; by injection Hmain as <- <-].
  destruct (to_excel env rows _) as [[u1|e] w2].
  - destruct (apply_formatting env w2) as [[u2|e] w3];
      injection Hmain as <- <-; (split; [by try destruct u2|]);
      cbn [print console]; rewrite last_snoc; eauto.
  - injection Hmain as <- <-. split; [done|].
    cbn [print console]. rewrite last_snoc. eauto.
Qed.

Lemma sheet_record_ids results ws i r :
  ws = sheet_of_frame env results →
  results !! i = Some r →
  ws_get ws (i + 2, col_B) = written (cell_of_json env (r_cid r))
  ∧ ws_get ws (i + 2, col_C) = written (cell_of_json env (r_smiles r)).
Proof.
  intros (rows & Hrows & ->)%sheet_of_frame_Some Hr.
  destruct (Forall2_lookup_l _ _ _ _ _ Hrows Hr) as (vs & Hvs & ->).
  split;
    unfold ws_get; rewrite lookup_write_rows;
    rewrite decide_True by (unfold col_B, col_C; lia);
    replace (i + 2 - 1) with (S i) by lia;
    change ((columns :: rows) !! S i) with (rows !! i); by rewrite Hvs.
Qed.

Lemma sheet_header results ws j v :
  ws = sheet_of_frame env results →
  columns !! j = Some v →
  ws_get ws (1, j + 1) = XCell v None None.
Proof.
  intros (rows & Hrows & ->)%sheet_of_frame_Some Hv.
  unfold ws_get. rewrite lookup_write_rows, decide_True by lia.
  replace (j + 1 - 1) with j by lia.
  change ((columns :: rows) !! (1 - 1) ≫= lookup j) with (columns !! j).
  rewrite Hv. cbn [default]. unfold written. f_equal.
  unfold columns in Hv.
  repeat (destruct j as [|j]; [by injection Hv as <-|]). done.
Qed.

(** What a run leaves in the output file, with what is known of the
    rows. *)
Lemma main_written compound_names w r w' :
  read_excel env = Ret compound_names →
  main env w = (r, w') →
  output_file w' = output_file w
  ∨ ∃ results ws,
      map r_name results = compound_names
      ∧ Forall row_ok results
      ∧ ws = sheet_of_frame env results
      ∧ (output_file w' = Some ws
         ∨ output_file w' = Some (write_summary (styling_pass ws))).
Proof.
  intros Hread Hmain. rewrite (main_eq _ _ _ Hread) in Hmain.
  destruct (resolve_rows_trace compound_names [] w)
    as (results & urls & msgs & E & Hnames & Hrows & _).
  rewrite E in Hmain. cbn [app] in Hmain.
  destruct (makedirs env); [|left; by injection Hmain as _ <-].
  rewrite to_excel_eq in Hmain.
  destruct (to_excel_io env); [|left; by injection Hmain as _ <-].
  set (ws := sheet_of_frame env results) in Hmain.
  right. exists results, ws. split_and!; [done..|].
  rewrite apply_formatting_eq in Hmain. cbn [output_file] in Hmain.
  destruct (load_workbook_io env); [|left; by injection Hmain as _ <-].
  destruct (save_io env); [right|left]; by injection Hmain as _ <-.
Qed.

(** X15: whenever a run writes its output, row 1 holds the five column
    names, "Compound name", "PubChem ID", "SMILES", "Status" and
    "Hyperlink", and the styling leaves that row without fill and
    without link. *)
Theorem header_row_survives compound_names w r w' :
  read_excel env = Ret compound_names →
  main env w = (r, w') →
  output_file w' = output_file w
  ∨ ∃ ws,
      output_file w' = Some ws
      ∧ ∀ j v, columns !! j = Some v →
          ws_get ws (1, j + 1) = XCell v None None.
Proof.
  intros Hread Hmain.
  destruct (main_written _ _ _ _ Hread Hmain)
    as [Hsame|(results & ws & _ & _ & Hws & Hout)]; [by left|right].
  destruct Hout as [Hout|Hout]; eexists; (split; [exact Hout|]);
    intros j v Hv; [by eapply sheet_header|].
  pose proof (sheet_max_row _ _ Hws) as Hmax.
  rewrite ws_get_write_summary by (rewrite max_row_styling_pass; lia).
  rewrite ws_get_styling_pass, decide_False by lia.
  by eapply sheet_header.
Qed.

(** X16: in the output a run writes, a row whose status is "not found"
    has a blank identifier and a blank structure, and a row with any
    other status has no hyperlink and a blank cell in column E. *)
Theorem rows_are_consistent compound_names w r w' :
  read_excel env = Ret compound_names →
  main env w = (r, w') →
  output_file w' = output_file w
  ∨ ∃ ws,
      output_file w' = Some ws
      ∧ ∀ i, i < length compound_names →
          (value (ws_get ws (i + 2, col_D)) = CStr (lit "not found") →
             value (ws_get ws (i + 2, col_B)) = CNone
             ∧ value (ws_get ws (i + 2, col_C)) = CNone)
          ∧ (value (ws_get ws (i + 2, col_D)) ≠ CStr (lit "not found") →
             value (ws_get ws (i + 2, col_E)) = CNone
             ∧ hyperlink (ws_get ws (i + 2, col_E)) = None).
Proof.
  intros Hread Hmain.
  destruct (main_written _ _ _ _ Hread Hmain)
    as [Hsame|(results & ws & Hnames & Hrows & Hws & Hout)]; [by left|right].
  pose proof (sheet_max_row _ _ Hws) as Hmax.
  assert (Hlen : length compound_names = length results)
    by (by rewrite <- Hnames, length_map).
  assert (Hrow : ∀ i, i < length compound_names →
    (value (ws_get ws (i + 2, col_D)) = CStr (lit "not found") →
       value (ws_get ws (i + 2, col_B)) = CNone
       ∧ value (ws_get ws (i + 2, col_C)) = CNone)
    ∧ ws_get ws (i + 2, col_E) = blank).
  { intros i Hi.
    destruct (lookup_lt_is_Some_2 results i) as [r0 Hr]; [lia|].
    destruct (sheet_record _ _ _ _ Hws Hr) as (_ & HD & HE).
    destruct (sheet_record_ids _ _ _ _ Hws Hr) as (HB & HC).
    rewrite List.Forall_forall in Hrows.
    destruct (Hrows r0 (proj1 (list_elem_of_In _ _)
                          (list_elem_of_lookup_2 _ _ _ Hr)))
      as [Hlink Hst].
    rewrite HD, HB, HC, HE, Hlink. split; [|done].
    destruct Hst as [(Hst & Hc & Hs)|[Hst|Hst]]; rewrite Hst.
    - by rewrite Hc, Hs.
    - by vm_compute.
    - by vm_compute. }
  destruct Hout as [Hout|Hout]; eexists; (split; [exact Hout|]); intros i Hi;
    destruct (Hrow i Hi) as [Hids HE].
  { split; [done|]. intros _. by rewrite HE. }
  rewrite !ws_get_write_summary by (rewrite max_row_styling_pass; lia).
  rewrite !value_styling_pass by done. split; [done|].
  intros Hst. rewrite ws_get_styling_pass, decide_True by lia.
  unfold styled. destruct (fill_colors_get _); [|by rewrite HE].
  rewrite decide_False, decide_True by done.
  destruct (eq_str _ _) eqn:Heq; [|by rewrite HE].
  by apply eq_str_true in Heq.
Qed.


End Runs.

(** ** The output path *)

Section Paths.

#[local] Open Scope N_scope.

Implicit Types (p a b d : pystr).

Lemma rfind_sep_free p : sep_free p → rfind_sep_succ p = 0%nat.
Proof.
  induction 1 as [|c t Hc _ IH]; [done|]. cbn [rfind_sep_succ].
  by rewrite IH, (proj2 (N.eqb_neq c sep_chr) Hc).
Qed.

Lemma rfind_0_sep_free p : rfind_sep_succ p = 0%nat → sep_free p.
Proof.
  induction p as [|c t IH]; [constructor|]. cbn [rfind_sep_succ].
  destruct (rfind_sep_succ t); [|done].
  destruct (N.eqb_spec c sep_chr); [done|]. intros _.
  constructor; [done|by apply IH].
Qed.

Lemma rfind_app_sep_free a b :
  sep_free b → rfind_sep_succ (a ++ b) = rfind_sep_succ a.
Proof.
  intros Hb. induction a as [|c t IH]; [by apply rfind_sep_free|].
  cbn [app rfind_sep_succ]. by rewrite IH.
Qed.

Lemma rfind_snoc_sep a : rfind_sep_succ (a ++ [sep_chr]) = S (length a).
Proof.
  induction a as [|c t IH]; [done|]. cbn [app rfind_sep_succ length].
  by rewrite IH.
Qed.

Lemma basename_sep_free p : sep_free (basename p).
Proof.
  unfold basename. induction p as [|c t IH]; [constructor|].
  cbn [rfind_sep_succ].
  destruct (rfind_sep_succ t) eqn:E; [|done].
  apply rfind_0_sep_free in E.
  destruct (N.eqb_spec c sep_chr); [done|]. by constructor.
Qed.

Lemma rstrip_snoc_sep a : rstrip_sep (a ++ [sep_chr]) = rstrip_sep a.
Proof.
  induction a as [|c t IH]; [done|]. cbn [app rstrip_sep]. by rewrite IH.
Qed.

Lemma rstrip_snoc_other a c :
  c ≠ sep_chr → rstrip_sep (a ++ [c]) = a ++ [c].
Proof.
  intros Hc. induction a as [|x t IH].
  - cbn. by rewrite (proj2 (N.eqb_neq c sep_chr) Hc).
  - cbn [app rstrip_sep]. rewrite IH. by destruct t.
Qed.

Lemma all_sep_snoc a c : all_sep (a ++ [c]) = all_sep a && (sep_chr =? c).
Proof.
  unfold all_sep. rewrite forallb_app. cbn. by rewrite andb_true_r.
Qed.

Lemma rstrip_all_sep a : all_sep a = true → rstrip_sep a = [].
Proof.
  induction a as [|c t IH]; [done|]. unfold all_sep in *.
  cbn [forallb rstrip_sep]. intros [Hc Ht]%andb_prop. rewrite (IH Ht).
  apply N.eqb_eq in Hc as <-. by rewrite N.eqb_refl.
Qed.

(** What [rstrip] leaves of a string that is not made of separators: a
    string that is not empty and ends with another character. *)
Lemma rstrip_shape a :
  all_sep a = false →
  ∃ d c, rstrip_sep a = d ++ [c] ∧ c ≠ sep_chr.
Proof.
  induction a as [|x t IH] using rev_ind; [done|].
  rewrite all_sep_snoc. destruct (N.eqb_spec sep_chr x) as [<-|Hx].
  - rewrite andb_true_r. intros Ht. rewrite rstrip_snoc_sep. auto.
  - intros _. exists t, x. split; [|done]. by apply rstrip_snoc_other.
Qed.

(** A directory name is empty, made of separators, or ends with another
    character. *)
Lemma dirname_shape p :
  dirname p = []
  ∨ (dirname p ≠ [] ∧ all_sep (dirname p) = true)
  ∨ ∃ d c, dirname p = d ++ [c] ∧ c ≠ sep_chr.
Proof.
  unfold dirname. cbv zeta.
  destruct (take (rfind_sep_succ p) p) as [|x h] eqn:E; [by left|].
  rewrite bool_decide_false by done. cbn [negb andb].
  destruct (all_sep (x :: h)) eqn:Hall; cbn [negb].
  - right; left. by rewrite Hall.
  - right; right. by apply rstrip_shape.
Qed.

Lemma processed_name_sep_free p : sep_free (lit "processed_" ++ basename p).
Proof.
  apply Forall_app. split; [|apply basename_sep_free].
  by apply (bool_decide_unpack _); vm_compute.
Qed.

Lemma ends_with_sep_snoc a c : ends_with_sep (a ++ [c]) = (c =? sep_chr).
Proof. unfold ends_with_sep. by rewrite last_snoc. Qed.

Lemma all_sep_ends a : a ≠ [] → all_sep a = true → ∃ a', a = a' ++ [sep_chr].
Proof.
  destruct a as [|x t] using rev_ind; [done|]. intros _.
  rewrite all_sep_snoc. intros [_ Hx]%andb_prop.
  apply N.eqb_eq in Hx as <-. by exists t.
Qed.

(** Joining a directory name and a file name can be taken apart
    again. *)
Lemma join_split d name :
  sep_free name →
  starts_with [sep_chr] name = false →
  d = [] ∨ (d ≠ [] ∧ all_sep d = true)
  ∨ (∃ d' c, d = d' ++ [c] ∧ c ≠ sep_chr) →
  dirname (path_join d name) = d ∧ basename (path_join d name) = name.
Proof.
  intros Hname Hstart Hd. unfold path_join. rewrite Hstart.
  destruct Hd as [->|[[Hne Hall]|(d' & c & -> & Hc)]].
  - cbn [bool_decide orb app]. rewrite bool_decide_true by done.
    cbn [orb app]. unfold dirname, basename.
    by rewrite rfind_sep_free by done.
  - destruct (all_sep_ends _ Hne Hall) as (a' & ->).
    rewrite bool_decide_false by done.
    rewrite ends_with_sep_snoc, N.eqb_refl. cbn [orb].
    unfold dirname, basename. cbv zeta.
    rewrite rfind_app_sep_free, rfind_snoc_sep by done.
    replace (S (length a')) with (length (a' ++ [sep_chr]))
      by (rewrite length_app; cbn; lia).
    rewrite take_app_length, drop_app_length, Hall.
    by rewrite andb_false_r.
  - rewrite bool_decide_false by (by destruct d').
    rewrite ends_with_sep_snoc, (proj2 (N.eqb_neq c sep_chr) Hc).
    cbn [orb]. unfold dirname, basename. cbv zeta.
    replace ((d' ++ [c]) ++ [sep_chr] ++ name)
      with (((d' ++ [c]) ++ [sep_chr]) ++ name) by by rewrite <- !app_assoc.
    rewrite rfind_app_sep_free, rfind_snoc_sep by done.
    replace (S (length (d' ++ [c])))
      with (length ((d' ++ [c]) ++ [sep_chr]))
      by (rewrite !length_app; cbn; lia).
    rewrite take_app_length, drop_app_length.
    rewrite bool_decide_false by (by destruct d').
    rewrite all_sep_snoc, all_sep_snoc.
    assert ((sep_chr =? c) = false) as -> by (apply N.eqb_neq; congruence).
    rewrite andb_false_r. cbn [negb andb].
    rewrite rstrip_snoc_sep. split; [|done]. by apply rstrip_snoc_other.
Qed.

Lemma output_path_split input_file :
  dirname (output_path input_file) = dirname input_file
  ∧ basename (output_path input_file)
    = lit "processed_" ++ basename input_file.
Proof.
  apply join_split.
  - apply (processed_name_sep_free input_file).
  - done.
  - apply dirname_shape.
Qed.

Lemma dirname_sep_free p : sep_free p → dirname p = [].
Proof.
  intros Hp. unfold dirname. by rewrite rfind_sep_free by done.
Qed.

(** X17: the output path is in the directory of the input file, and its
    file name is the name of the input file with "processed_" in front;
    for a file name without directory the output path is that name with
    "processed_" in front. *)
Theorem output_path_beside_input input_file :
  dirname (output_path input_file) = dirname input_file
  ∧ basename (output_path input_file)
    = lit "processed_" ++ basename input_file
  ∧ (sep_free input_file →
     output_path input_file = lit "processed_" ++ input_file).
Proof.
  destruct (output_path_split input_file) as [Hd Hb].
  split_and!; [done..|]. intros Hfree.
  unfold output_path, path_join. rewrite (dirname_sep_free _ Hfree).
  unfold basename. by rewrite rfind_sep_free by done.
Qed.

(** X18: started on a bare file name, one without directory, the script
    looks every name up and then stops with the exception of
    [os.makedirs], which is asked to create the empty path: [main] raises
    and nothing is written. *)
Theorem bare_file_name_aborts
    env (mkdir : pystr → py ()) input_file compound_names w :
  sep_free input_file →
  read_excel env = Ret compound_names →
  makedirs env = os_makedirs mkdir (dirname (output_path input_file)) →
  ∃ w',
    main env w = (Raise OSError, w')
    ∧ output_file w' = output_file w
    ∧ (length (requests w) + length compound_names
       ≤ length (requests w'))%nat.
Proof.
  intros Hfree Hread Hdir.
  assert (Hempty : dirname (output_path input_file) = []).
  { rewrite (proj1 (output_path_split input_file)).
    by apply dirname_sep_free. }
  rewrite Hempty in Hdir. unfold os_makedirs in Hdir.
  rewrite bool_decide_true in Hdir by done.
  rewrite (main_eq _ _ _ Hread), Hdir.
  destruct (resolve_rows_trace env compound_names [] w)
    as (rows & urls & msgs & -> & _ & Hrows & Hlen & Hmsgs).
  eexists. split; [reflexivity|]. cbn [requests console output_file].
  split; [done|]. rewrite length_app. lia.
Qed.

End Paths.

Lemma bare_file_name_aborts_witness :
  (sep_free (lit "names.xlsx")
   ∧ read_excel bare_file_name = Ret [CStr (lit "aspirin")])
  ∧ ∃ w', main bare_file_name fresh = (Raise OSError, w')
          ∧ output_file w' = None.
Proof.
  assert (H1 : sep_free (lit "names.xlsx"))
    by (apply (bool_decide_unpack _); vm_compute; exact I).
  assert (H2 : read_excel bare_file_name = Ret [CStr (lit "aspirin")])
    by reflexivity.
  split; [exact (conj H1 H2)|].
  destruct (bare_file_name_aborts bare_file_name (λ _, Ret ())
              (lit "names.xlsx") _ fresh H1 H2 eq_refl)
    as (w' & Hmain & Hout & _).
  exists w'. exact (conj Hmain Hout).
Defined.


(** ** More sample runs *)

Lemma run_makes_one_or_two_requests_per_name_witness :
  (read_excel zero_names = Ret [CInt 0; CInt 7]
   ∧ main zero_names fresh
     = ((main zero_names fresh).1, (main zero_names fresh).2))
  ∧ 0 + 2 ≤ length (requests (main zero_names fresh).2)
  ∧ length (requests (main zero_names fresh).2) ≤ 0 + 2 * 2.
Proof.
  assert (H1 : read_excel zero_names = Ret [CInt 0; CInt 7]) by reflexivity.
  assert (H2 : main zero_names fresh
               = ((main zero_names fresh).1, (main zero_names fresh).2))
    by apply surjective_pairing.
  split; [exact (conj H1 H2)|].
  exact (run_makes_one_or_two_requests_per_name zero_names _ _ _ _ H1 H2).
Defined.

Lemma main_outcomes_witness :
  main save_fails fresh
  = ((main save_fails fresh).1, (main save_fails fresh).2)
  ∧ (main save_fails fresh).1 = Ret ()
  ∧ last (console (main save_fails fresh).2) = Some (ErrorSaving OSError).
Proof.
  assert (H : main save_fails fresh
              = ((main save_fails fresh).1, (main save_fails fresh).2))
    by apply surjective_pairing.
  split; [exact H|].
  destruct (main_outcomes save_fails _ _ _ H)
    as [(e & Hread & _)|[(e & Hdir & _)|(Hret & _)]].
  - discriminate Hread.
  - discriminate Hdir.
  - split; [exact Hret|]. vm_compute. reflexivity.
Defined.

Lemma header_row_survives_witness :
  (read_excel substance_only = Ret [CStr (lit "aspirin")]
   ∧ main substance_only fresh
     = ((main substance_only fresh).1, (main substance_only fresh).2))
  ∧ ws_get (output_sheet (main substance_only fresh)) (1, 4)
    = XCell (CStr (lit "Status")) None None.
Proof.
  assert (H1 : read_excel substance_only = Ret [CStr (lit "aspirin")])
    by reflexivity.
  assert (H2 : main substance_only fresh
               = ((main substance_only fresh).1,
                  (main substance_only fresh).2))
    by apply surjective_pairing.
  split; [exact (conj H1 H2)|].
  destruct (header_row_survives substance_only _ _ _ _ H1 H2)
    as [Hsame|(ws & Hout & Hhead)].
  - vm_compute in Hsame. discriminate Hsame.
  - unfold output_sheet. rewrite Hout.
    exact (Hhead 3 (CStr (lit "Status")) eq_refl).
Defined.

Lemma rows_are_consistent_witness :
  (read_excel zero_names = Ret [CInt 0; CInt 7]
   ∧ main zero_names fresh
     = ((main zero_names fresh).1, (main zero_names fresh).2))
  ∧ value (ws_get (output_sheet (main zero_names fresh)) (2, col_B)) = CNone
  ∧ value (ws_get (output_sheet (main zero_names fresh)) (2, col_C)) = CNone.
Proof.
  assert (H1 : read_excel zero_names = Ret [CInt 0; CInt 7]) by reflexivity.
  assert (H2 : main zero_names fresh
               = ((main zero_names fresh).1, (main zero_names fresh).2))
    by apply surjective_pairing.
  split; [exact (conj H1 H2)|].
  destruct (rows_are_consistent zero_names _ _ _ _ H1 H2)
    as [Hsame|(ws & Hout & Hrows)].
  - vm_compute in Hsame. discriminate Hsame.
  - unfold output_sheet. rewrite Hout.
    assert (Hst : value (ws_get ws (0 + 2, col_D)) = CStr (lit "not found")).
    { assert (Hws : ws = output_sheet (main zero_names fresh))
        by (unfold output_sheet; rewrite Hout; reflexivity).
      rewrite Hws. vm_compute. reflexivity. }
    exact (proj1 (Hrows 0 (Nat.lt_0_succ 1)) Hst).
Defined.


(** ** The line printed for a name PubChem does not know *)

Section Diagnostics.

Context (env : environment).

(** X19: when both the compound and the substance endpoint answer 404,
    the lookup prints a single line, the one that says the substance was
    not found, and the name in it is the normalized name, not the cell as
    it was read; the compound 404 itself prints nothing. *)
Theorem double_404_prints_the_normalized_name compound_name w :
  let name := replace_special_characters compound_name in
  let n := length (requests w) in
  lookup_missing (remote env n (lookup_url false name)) →
  lookup_missing (remote env (S n) (lookup_url true name)) →
  get_pubchem_info env compound_name false w
  = (Ret not_found,
     World (requests w ++ [lookup_url false name; lookup_url true name])
       (console w ++ [SubstanceNotFound name]) (output_file w)).
Proof.
  intros name n H1 H2.
  rewrite get_pubchem_info_eq, try_lookup_eq. fold name.
  unfold next_reply. fold n.
  inversion H1 as [r1 Hs1 Hr1]. rewrite (read_response_missing _ _ Hs1).
  cbn [Z.eqb Pos.eqb].
  rewrite get_pubchem_info_eq, try_lookup_eq.
  pose proof (normalize_idempotent compound_name) as Hid. fold name in Hid.
  rewrite Hid. unfold next_reply. cbn [requests].
  rewrite length_app. cbn [length].
  replace (length (requests w) + 1) with (S n) by (unfold n; lia).
  inversion H2 as [r2 Hs2 Hr2]. rewrite (read_response_missing _ _ Hs2).
  cbn [Z.eqb Pos.eqb]. unfold mbind, M_bind, print, mret, M_ret.
  cbn [requests console output_file]. by rewrite <- app_assoc.
Qed.

End Diagnostics.

Lemma double_404_prints_the_normalized_name_witness :
  (lookup_missing
     (remote zero_names 0
        (lookup_url false (lit "alpha-tocopherol")))
   ∧ lookup_missing
       (remote zero_names 1
          (lookup_url true (lit "alpha-tocopherol"))))
  ∧ console
      (get_pubchem_info zero_names
         (CStr (alpha_chr :: lit "-tocopherol")) false fresh).2
    = [SubstanceNotFound (lit "alpha-tocopherol")].
Proof.
  assert (H1 : lookup_missing
                 (remote zero_names 0
                    (lookup_url false (lit "alpha-tocopherol"))))
    by (constructor; reflexivity).
  assert (H2 : lookup_missing
                 (remote zero_names 1
                    (lookup_url true (lit "alpha-tocopherol"))))
    by (constructor; reflexivity).
  split; [exact (conj H1 H2)|].
  rewrite (double_404_prints_the_normalized_name zero_names
             (CStr (alpha_chr :: lit "-tocopherol")) fresh H1 H2).
  reflexivity.
Defined.
